(** * pan.wfapi: multipart form-data, response classification and the
      client operations of the WildFire API client

    A shallow embedding of [lib/pan/wfapi.py].  Python [bytes] are lists of
    [byte]; Python [str] are lists of code points; the attributes of a
    [PanWFapi] instance are the fields of a record that every method
    threads through; exceptions are the [Raise] outcome of a small monad.
    What the module takes from the Python library (the XML parser, the
    table of HTTP reason phrases, the URL opener, the file system, the
    random source) is a field of the class [Platform]; what the constructor
    takes from outside the module (the configuration, [int], the [ssl]
    module) is a field of the class [Startup]. *)

From Stdlib Require Import Strings.Byte.
From stdpp Require Import gmap strings list pretty.

Local Open Scope N_scope.

(** ** Bytes and text *)

Abbreviation bytes := (list byte).
Abbreviation codepoint := N (only parsing).
Abbreviation str := (list N).

(** [b'...'] and ['...'] literals (ASCII only in this module). *)
Definition blit (s : string) : bytes := String.list_byte_of_string s.
Definition slit (s : string) : str := Byte.to_N <$> String.list_byte_of_string s.

Definition CR : byte := x0d.
Definition LF : byte := x0a.
Definition DQUOTE : byte := x22.
Definition CRLF : bytes := [CR; LF].

#[global] Instance byte_eq_decision : EqDecision byte.
Proof.
  intros x y. destruct (Byte.eqb x y) eqn:E.
  - left. by apply Byte.byte_dec_bl.
  - right. by apply Byte.eqb_false.
Defined.

Definition byte_of (n : N) : byte := default x00 (Byte.of_N (n mod 256)).

(** ** Exceptions and outcomes *)

Inductive Exn :=
| PanWFapiError (msg : option str)
| UnicodeEncodeError
| UnicodeDecodeError
| IndexError
| AttributeError
| TypeError
| ValueError
| OtherException (e : str).

Inductive Outcome (A : Type) :=
| Return (a : A)
| Raise (e : Exn).
Arguments Return {A} a.
Arguments Raise {A} e.

Definition obind {A B} (m : Outcome A) (k : A -> Outcome B) : Outcome B :=
  match m with
  | Return a => k a
  | Raise e => Raise e
  end.

Notation "x <-- m ;; k" := (obind m (fun x => k))
  (at level 100, m at next level, right associativity).

Fixpoint omap {A B} (f : A -> Outcome B) (l : list A) : Outcome (list B) :=
  match l with
  | [] => Return []
  | x :: t => y <-- f x ;; ys <-- omap f t ;; Return (y :: ys)
  end.

(** ** Codecs: [str.encode] and [bytes.decode] *)

(** [s.encode('latin-1')]: one byte per code point, fails above 255. *)
Definition encode_latin1 (s : str) : Outcome bytes :=
  omap (fun c => match Byte.of_N c with
                 | Some x => Return x
                 | None => Raise UnicodeEncodeError
                 end) s.

(** [s.encode('ascii')]: fails above 127. *)
Definition encode_ascii (s : str) : Outcome bytes :=
  omap (fun c => if c <? 128 then Return (byte_of c)
                 else Raise UnicodeEncodeError) s.

Definition utf8_encode_cp (c : codepoint) : Outcome bytes :=
  if c <? 0x80 then Return [byte_of c]
  else if c <? 0x800 then
    Return [byte_of (0xC0 + c / 64); byte_of (0x80 + c mod 64)]
  else if c <? 0x10000 then
    if (0xD800 <=? c) && (c <=? 0xDFFF) then Raise UnicodeEncodeError
    else Return [byte_of (0xE0 + c / 4096);
                 byte_of (0x80 + (c / 64) mod 64);
                 byte_of (0x80 + c mod 64)]
  else if c <? 0x110000 then
    Return [byte_of (0xF0 + c / 262144);
            byte_of (0x80 + (c / 4096) mod 64);
            byte_of (0x80 + (c / 64) mod 64);
            byte_of (0x80 + c mod 64)]
  else Raise UnicodeEncodeError.

(** [s.encode('utf-8')], also the default of [s.encode()]. *)
Definition encode_utf8 (s : str) : Outcome bytes :=
  l <-- omap utf8_encode_cp s ;; Return (concat l).

Definition is_cont (x : byte) : bool :=
  let n := Byte.to_N x in (0x80 <=? n) && (n <=? 0xBF).

Definition in_range (lo hi : N) (x : byte) : bool :=
  let n := Byte.to_N x in (lo <=? n) && (n <=? hi).

Definition low6 (x : byte) : N := Byte.to_N x mod 64.

(** [b.decode('utf-8')], also the default of [b.decode()]: the strict
    decoder (no overlong forms, no surrogates, nothing above U+10FFFF). *)
Fixpoint decode_utf8 (l : bytes) : Outcome str :=
  match l with
  | [] => Return []
  | a :: t =>
    let n := Byte.to_N a in
    if n <? 0x80 then
      s <-- decode_utf8 t ;; Return (n :: s)
    else if in_range 0xC2 0xDF a then
      match t with
      | x :: t1 =>
        if is_cont x then
          s <-- decode_utf8 t1 ;; Return (((n - 0xC0) * 64 + low6 x) :: s)
        else Raise UnicodeDecodeError
      | _ => Raise UnicodeDecodeError
      end
    else if in_range 0xE0 0xEF a then
      match t with
      | x :: y :: t2 =>
        let ok := if n =? 0xE0 then in_range 0xA0 0xBF x
                  else if n =? 0xED then in_range 0x80 0x9F x
                  else is_cont x in
        if ok && is_cont y then
          s <-- decode_utf8 t2 ;;
          Return (((n - 0xE0) * 4096 + low6 x * 64 + low6 y) :: s)
        else Raise UnicodeDecodeError
      | _ => Raise UnicodeDecodeError
      end
    else if in_range 0xF0 0xF4 a then
      match t with
      | x :: y :: z :: t3 =>
        let ok := if n =? 0xF0 then in_range 0x90 0xBF x
                  else if n =? 0xF4 then in_range 0x80 0x8F x
                  else is_cont x in
        if ok && is_cont y && is_cont z then
          s <-- decode_utf8 t3 ;;
          Return (((n - 0xF0) * 262144 + low6 x * 4096 + low6 y * 64 + low6 z) :: s)
        else Raise UnicodeDecodeError
      | _ => Raise UnicodeDecodeError
      end
    else Raise UnicodeDecodeError
  end.

(** [base64.b64encode]. *)
Definition b64_alphabet : bytes :=
  blit "ABCDEFGHIJKLMNOPQRSTUVWXYZabcdefghijklmnopqrstuvwxyz0123456789+/".

Definition b64_char (n : N) : byte := nth (N.to_nat n) b64_alphabet x3d.

Fixpoint b64encode (s : bytes) : bytes :=
  match s with
  | [] => []
  | [a] =>
    let n := Byte.to_N a in
    [b64_char (n / 4); b64_char ((n mod 4) * 16); x3d; x3d]
  | [a; c] =>
    let n := Byte.to_N a in
    let m := Byte.to_N c in
    [b64_char (n / 4); b64_char ((n mod 4) * 16 + m / 16);
     b64_char ((m mod 16) * 4); x3d]
  | a :: c :: d :: t =>
    let n := Byte.to_N a in
    let m := Byte.to_N c in
    let k := Byte.to_N d in
    b64_char (n / 4) :: b64_char ((n mod 4) * 16 + m / 16) ::
    b64_char ((m mod 16) * 4 + k / 64) :: b64_char (k mod 64) ::
    b64encode t
  end.

(** [sep.join(l)] on bytes and on text. *)
Fixpoint sep_join {A} (sep : list A) (l : list (list A)) : list A :=
  match l with
  | [] => []
  | [x] => x
  | x :: t => x ++ sep ++ sep_join sep t
  end.

(** [data.split(sep)] on bytes: the pieces between the occurrences of
    [sep], found from the left and not overlapping.  [split_from] walks
    the data; [skip] counts the bytes of a separator just found that are
    still to be stepped over, [cur] is the piece being collected. *)
Fixpoint split_from (sep : bytes) (skip : nat) (cur data : bytes) : list bytes :=
  match data with
  | [] => [cur]
  | x :: t =>
    match skip with
    | S k => split_from sep k cur t
    | O =>
      if bool_decide (sep `prefix_of` data)
      then cur :: split_from sep (pred (length sep)) [] t
      else split_from sep 0 (cur ++ [x]) t
    end
  end.

Definition bytes_split (sep data : bytes) : Outcome (list bytes) :=
  if bool_decide (sep = []) then Raise ValueError
  else Return (split_from sep 0 [] data).

(** No occurrence of [sep] in [pre ++ tail] starts inside [pre]. *)
Definition first_at (sep pre tail : bytes) : Prop :=
  forall a b, pre ++ tail = a ++ sep ++ b -> (length pre <= length a)%nat.

(** The bytes a boundary line is made of: ASCII, neither CR nor LF. *)
Definition line_safe (x : byte) : bool :=
  negb (Byte.eqb x CR) && negb (Byte.eqb x LF) && (Byte.to_N x <? 128).

(** [sep] occurs somewhere in [data]. *)
Definition occurs (sep data : bytes) : Prop :=
  exists before after, data = before ++ sep ++ after.

(** [b.decode('ascii')]. *)
Definition decode_ascii (l : bytes) : Outcome str :=
  omap (fun x => if Byte.to_N x <? 128 then Return (Byte.to_N x)
                 else Raise UnicodeDecodeError) l.

(** A [BytesIO] that is only written to: [write] appends. *)
Definition BytesIO := bytes.
Definition bio_new : BytesIO := [].
Definition bio_write (bio : BytesIO) (data : bytes) : BytesIO := bio ++ data.
Definition bio_getvalue (bio : BytesIO) : bytes := bio.

(** A value that is either [str] or [bytes] ([isinstance(body, str)]). *)
Inductive Data :=
| DStr (s : str)
| DBytes (b : bytes).

(** ** What the module uses of the Python library *)

(** [xml.etree.ElementTree.Element] *)
#[warnings="-register-all"]
Inductive Element :=
| Elem (tag : str) (attrib : list (str * str)) (text : option str)
       (children : list Element) (tail : option str).

(** An [ssl.SSLContext] object, known by its identity only. *)
Inductive SSLContext :=
| SSLContextObject (id : N).

(** What the [email.message.Message] built from the response headers holds
    for the two methods the module calls:
    [content_type] is [_splitparam(self.get('content-type'))[0].lower()],
    the value of the Content-Type header without its parameters;
    [disposition_filename] is [get_param('filename',
    header='content-disposition')] and [content_type_name] is
    [get_param('name', header='content-type')], both as [get_filename()]
    returns them (collapsed and stripped).  [None] is a header or a
    parameter that is missing. *)
Record Message := {
  content_type : option str;
  disposition_filename : option str;
  content_type_name : option str
}.

(** [Message.get_content_type()]: the default type without the header,
    and also when the value does not hold exactly one slash. *)
Definition get_content_type (m : Message) : str :=
  match content_type m with
  | None => slit "text/plain"
  | Some ctype =>
    if negb (length (filter (fun c : N => c = 47%N) ctype) =? 1)%nat then slit "text/plain"
    else ctype
  end.

(** [Message.get_filename()]: the filename parameter of
    Content-Disposition, and without it the name parameter of
    Content-Type. *)
Definition get_filename (m : Message) : option str :=
  match disposition_filename m with
  | Some filename => Some filename
  | None => content_type_name m
  end.

(** The response object returned by the opener.  [info] is the outcome of
    [email.message_from_string(str(response.info()))]: [inl e] when it
    raises [TypeError] or [MessageError] with [str(e) = e]. *)
Record HTTPResponse := {
  getcode : Z;
  reason : str;
  info : str + Message;
  read : bytes
}.

Record Request := {
  req_url : str;
  req_data : bytes;
  req_headers : list (str * str)
}.

Record Kwargs := {
  kw_url : Request;
  kw_context : option SSLContext;
  kw_timeout : option Z
}.

(** [c.lower()] of an ASCII character. *)
Definition ascii_lower (c : N) : N :=
  if (65 <=? c) && (c <=? 90) then c + 32 else c.

(** The text before the first colon of a URL, in lower case, when no slash
    comes before that colon. *)
Fixpoint scheme_chars (url : str) : option str :=
  match url with
  | [] => None
  | c :: t =>
    if c =? 58 then Some []
    else if c =? 47 then None
    else cons (ascii_lower c) <$> scheme_chars t
  end.

(** [Request(url).type]: the scheme of the URL; [None] is a URL without
    one.  The URI of an instance that the constructor made starts with
    'http://' or 'https://'; [Request] raising [ValueError] for a URL
    without a scheme is not modelled. *)
Definition request_type (url : str) : option str :=
  match scheme_chars url with
  | Some (c :: scheme) => Some (c :: scheme)
  | _ => None
  end.

(** How a call of the opener ends: in [ssl.CertificateError] with
    [str(e) = e], in [URLError] or [IOError] with [str(e) = e], in a
    response, or in an exception of another class, known by its text,
    which the module does not catch (as [http.client.BadStatusLine]). *)
Inductive UrlopenResult :=
| CertificateError (e : str)
| URLError (e : str)
| Response (r : HTTPResponse)
| OpenerRaised (e : str).

(** How [etree.fromstring] ends: in [ParseError] with [str(msg) = msg], in
    the root element, or in an exception of another class, known by its
    text, which the module does not catch (as [LookupError] for an unknown
    encoding). *)
Inductive Fromstring :=
| ParseError (msg : str)
| Parsed (element : Element)
| FromstringRaised (e : str).

Class Platform := {
  (** [email.utils.encode_rfc2231(value, charset)] *)
  encode_rfc2231 : str -> str -> str;
  (** [os.urandom(n)]; [None] is [NotImplementedError] *)
  os_urandom : nat -> option bytes;
  (** the [i]-th value drawn by [random.randrange(n)] *)
  random_randrange : nat -> N -> N;
  (** [etree.fromstring] *)
  etree_fromstring : bytes -> Fromstring;
  (** [http.client.responses] *)
  responses : gmap Z str;
  (** [urllib.parse.urlencode] of a [dict], given in insertion order *)
  urlencode : list (str * str) -> str;
  (** [OpenerDirector._open]: what the handlers of the opener give for the
      request, before the response processors see it; the network is a
      function of the request *)
  handlers_open : Kwargs -> UrlopenResult;
  (** [self.parent.error('http', request, response, code, msg, hdrs)] in
      [HTTPErrorProcessor.http_response]: what the error handlers of the
      opener make of a response outside 200..299.  With the handlers of
      [build_opener] that is [HTTPError], a [URLError] whose text is
      'HTTP Error <code>: <reason>', unless a redirect is followed *)
  http_error : Kwargs -> HTTPResponse -> UrlopenResult;
  (** [open(path, 'rb')] followed by [read()]; [inl e] is [IOError] with
      [str(e) = e] *)
  open_rb : str -> str + bytes
}.

(** ** The client instance *)

Record PanWFapi := {
  uri : str;
  api_key : str;
  agent : option str;
  timeout : option Z;
  ssl_context : option SSLContext;
  _msg : option str;
  http_code : option Z;
  http_reason : option str;
  response_body : option str;
  response_type : option str;
  xml_element_root : option Element;
  attachment : option (gmap string Data);
  _message : option Message
}.

Definition set_msg (v : option str) (self : PanWFapi) : PanWFapi :=
  {| uri := uri self;
     api_key := api_key self;
     agent := agent self;
     timeout := timeout self;
     ssl_context := ssl_context self;
     _msg := v;
     http_code := http_code self;
     http_reason := http_reason self;
     response_body := response_body self;
     response_type := response_type self;
     xml_element_root := xml_element_root self;
     attachment := attachment self;
     _message := _message self |}.

Definition set_http_code (v : option Z) (self : PanWFapi) : PanWFapi :=
  {| uri := uri self;
     api_key := api_key self;
     agent := agent self;
     timeout := timeout self;
     ssl_context := ssl_context self;
     _msg := _msg self;
     http_code := v;
     http_reason := http_reason self;
     response_body := response_body self;
     response_type := response_type self;
     xml_element_root := xml_element_root self;
     attachment := attachment self;
     _message := _message self |}.

Definition set_http_reason (v : option str) (self : PanWFapi) : PanWFapi :=
  {| uri := uri self;
     api_key := api_key self;
     agent := agent self;
     timeout := timeout self;
     ssl_context := ssl_context self;
     _msg := _msg self;
     http_code := http_code self;
     http_reason := v;
     response_body := response_body self;
     response_type := response_type self;
     xml_element_root := xml_element_root self;
     attachment := attachment self;
     _message := _message self |}.

Definition set_response_body (v : option str) (self : PanWFapi) : PanWFapi :=
  {| uri := uri self;
     api_key := api_key self;
     agent := agent self;
     timeout := timeout self;
     ssl_context := ssl_context self;
     _msg := _msg self;
     http_code := http_code self;
     http_reason := http_reason self;
     response_body := v;
     response_type := response_type self;
     xml_element_root := xml_element_root self;
     attachment := attachment self;
     _message := _message self |}.

Definition set_response_type (v : option str) (self : PanWFapi) : PanWFapi :=
  {| uri := uri self;
     api_key := api_key self;
     agent := agent self;
     timeout := timeout self;
     ssl_context := ssl_context self;
     _msg := _msg self;
     http_code := http_code self;
     http_reason := http_reason self;
     response_body := response_body self;
     response_type := v;
     xml_element_root := xml_element_root self;
     attachment := attachment self;
     _message := _message self |}.

Definition set_xml_element_root (v : option Element) (self : PanWFapi) : PanWFapi :=
  {| uri := uri self;
     api_key := api_key self;
     agent := agent self;
     timeout := timeout self;
     ssl_context := ssl_context self;
     _msg := _msg self;
     http_code := http_code self;
     http_reason := http_reason self;
     response_body := response_body self;
     response_type := response_type self;
     xml_element_root := v;
     attachment := attachment self;
     _message := _message self |}.

Definition set_attachment (v : option (gmap string Data)) (self : PanWFapi) : PanWFapi :=
  {| uri := uri self;
     api_key := api_key self;
     agent := agent self;
     timeout := timeout self;
     ssl_context := ssl_context self;
     _msg := _msg self;
     http_code := http_code self;
     http_reason := http_reason self;
     response_body := response_body self;
     response_type := response_type self;
     xml_element_root := xml_element_root self;
     attachment := v;
     _message := _message self |}.

Definition set_message (v : option Message) (self : PanWFapi) : PanWFapi :=
  {| uri := uri self;
     api_key := api_key self;
     agent := agent self;
     timeout := timeout self;
     ssl_context := ssl_context self;
     _msg := _msg self;
     http_code := http_code self;
     http_reason := http_reason self;
     response_body := response_body self;
     response_type := response_type self;
     xml_element_root := xml_element_root self;
     attachment := attachment self;
     _message := v |}.

(** File and network activity, in the order it is attempted. *)
Inductive Event :=
| EvOpen (path : str)
| EvUrlopen (kwargs : Kwargs).

(** Methods: a state transformer on the instance that returns or raises and
    lists the activity it attempted.  The instance keeps its mutations when
    a method raises. *)
Definition M (A : Type) : Type := PanWFapi -> Outcome A * PanWFapi * list Event.

Definition ret {A} (a : A) : M A := fun self => (Return a, self, []).
Definition raise {A} (e : Exn) : M A := fun self => (Raise e, self, []).
Definition bind {A B} (m : M A) (k : A -> M B) : M B :=
  fun self =>
    match m self with
    | (Return a, self', ev) =>
      let '(o, self'', ev') := k a self' in (o, self'', ev ++ ev')
    | (Raise e, self', ev) => (Raise e, self', ev)
    end.
Definition get : M PanWFapi := fun self => (Return self, self, []).
Definition modify (f : PanWFapi -> PanWFapi) : M unit :=
  fun self => (Return tt, f self, []).
Definition lift {A} (o : Outcome A) : M A := fun self => (o, self, []).
Definition emit (e : Event) : M unit := fun self => (Return tt, self, [e]).

Notation "x <~ m ;; k" := (bind m (fun x => k))
  (at level 100, m at next level, right associativity).
Notation "m ;;; k" := (bind m (fun _ => k))
  (at level 100, right associativity).

Definition outcome {A} (r : Outcome A * PanWFapi * list Event) : Outcome A := r.1.1.
Definition final {A} (r : Outcome A * PanWFapi * list Event) : PanWFapi := r.1.2.
Definition activity {A} (r : Outcome A * PanWFapi * list Event) : list Event := r.2.

(** The computation returns. *)
Definition succeeds {A} (o : Outcome A) : Prop := exists a, o = Return a.

(** [if isinstance(body, str): body = body.encode(...)] *)
Definition as_bytes (encode : str -> Outcome bytes) (data : Data) : Outcome bytes :=
  match data with
  | DStr s => encode s
  | DBytes x => Return x
  end.

Section WFapi.

Context {platform : Platform}.

(** [_encoding]; [decode_utf8] is [decode(_encoding)]. *)
Definition _encoding : str := slit "utf-8".
Definition _wildfire_responses : gmap Z str :=
  {[ 418%Z := slit "Unsupported File Type" ]}.
Definition _rfc2231_encode : bool := false.

(** ** Minimal RFC 2388 implementation *)

Record _FormDataPart := {
  headers : list bytes;
  body : option bytes
}.

Definition add_header (header : bytes) (self : _FormDataPart) : _FormDataPart :=
  {| headers := headers self ++ [header]; body := body self |}.

(** ['%s="%s"' % (name, value)] *)
Definition fmt_quoted (name value : str) : str :=
  name ++ slit "=" ++ [Byte.to_N DQUOTE] ++ value ++ [Byte.to_N DQUOTE].

Definition _encode_field (name value : str) : Outcome bytes :=
  if negb _rfc2231_encode then
    encode_utf8 (fmt_quoted name value)
  else
    let unsafe := filter (fun ch => ch ∈ value) [Byte.to_N CR; Byte.to_N LF; 92] in
    let plain :=
      match unsafe with
      | [] => match encode_ascii (fmt_quoted name value) with
              | Return s => Some s
              | Raise _ => None
              end
      | _ => None
      end in
    match plain with
    | Some s => Return s
    | None =>
      let value := encode_rfc2231 value (slit "utf-8") in
      encode_ascii (name ++ slit "*=" ++ value)
    end.

(** [self.headers[-1] += b'; ' + self._encode_field(name, value)] *)
Definition append_header (name value : str) (self : _FormDataPart)
  : Outcome _FormDataPart :=
  match last (headers self) with
  | None => Raise IndexError
  | Some h =>
    f <-- _encode_field name value ;;
    Return {| headers := <[ pred (length (headers self)) := h ++ blit "; " ++ f ]> (headers self);
              body := body self |}
  end.

Definition add_body (data : Data) (self : _FormDataPart) : Outcome _FormDataPart :=
  data <-- as_bytes encode_latin1 data ;;
  Return {| headers := headers self; body := Some data |}.

Definition _FormDataPart_init (name : str) (data : option Data)
  : Outcome _FormDataPart :=
  let self := {| headers := []; body := None |} in
  let self := add_header (blit "Content-Disposition: form-data") self in
  self <-- append_header (slit "name") name self ;;
  match data with
  | Some d => add_body d self
  | None => Return self
  end.

Definition serialize (self : _FormDataPart) : bytes :=
  let bio := bio_new in
  let bio := bio_write bio (sep_join CRLF (headers self)) in
  let bio := bio_write bio (CRLF ++ CRLF) in
  let bio := match body self with
             | Some x => bio_write bio x
             | None => bio
             end in
  bio_getvalue bio.

Record _MultiPartFormData := {
  parts : list _FormDataPart;
  boundary : bytes
}.

Definition _boundary : bytes :=
  let rand_bytes := 48%nat in
  let prefix_char := blit "_" in
  let prefix_len := 16%nat in
  let seq :=
    match os_urandom rand_bytes with
    | Some s => s
    | None => (fun i => byte_of (random_randrange i 256)) <$> seq 0 rand_bytes
    end in
  let prefix := concat (replicate prefix_len prefix_char) in
  prefix ++ b64encode seq.

Definition _MultiPartFormData_init : _MultiPartFormData :=
  {| parts := []; boundary := _boundary |}.

Definition add_field (name : str) (value : option Data) (self : _MultiPartFormData)
  : Outcome _MultiPartFormData :=
  part <-- _FormDataPart_init name value ;;
  Return {| parts := parts self ++ [part]; boundary := boundary self |}.

Definition add_file (filename : option str) (data : option Data)
  (self : _MultiPartFormData) : Outcome _MultiPartFormData :=
  part <-- _FormDataPart_init (slit "file") None ;;
  part <-- match filename with
           | Some f => append_header (slit "filename") f part
           | None => Return part
           end ;;
  part <-- match data with
           | Some d =>
             add_body d (add_header (blit "Content-Type: application/octet-stream") part)
           | None => Return part
           end ;;
  Return {| parts := parts self ++ [part]; boundary := boundary self |}.

Definition http_headers (self : _MultiPartFormData) : Outcome (list (str * str)) :=
  boundary <-- decode_ascii (boundary self) ;;
  Return [(slit "Content-Type", slit "multipart/form-data; boundary=" ++ boundary)].

Definition http_body (self : _MultiPartFormData) : bytes :=
  let bio := bio_new in
  let boundary := blit "--" ++ boundary self in
  let bio :=
    foldl (fun bio part =>
             let bio := bio_write bio boundary in
             let bio := bio_write bio CRLF in
             let bio := bio_write bio (serialize part) in
             bio_write bio CRLF)
          bio (parts self) in
  let bio := bio_write bio boundary in
  let bio := bio_write bio (blit "--") in
  bio_getvalue bio.

(** ** The methods of the client *)

Definition __clear_response : M unit :=
  modify (set_msg None) ;;;
  modify (set_http_code None) ;;;
  modify (set_http_reason None) ;;;
  modify (set_response_body None) ;;;
  modify (set_response_type None) ;;;
  modify (set_xml_element_root None) ;;;
  modify (set_attachment None).

Definition __set_stream_response (response : HTTPResponse) (message_body : bytes)
  : M bool :=
  self <~ get ;;
  match _message self with
  | None => raise AttributeError
  | Some message =>
    match get_filename message with
    | None | Some [] =>
      modify (set_msg (Some (slit "no content-disposition response header"))) ;;;
      ret false
    | Some filename =>
      let attachment : gmap string Data := ∅ in
      let attachment := <["filename" := DStr filename]> attachment in
      let attachment := <["content" := DBytes message_body]> attachment in
      modify (set_attachment (Some attachment)) ;;;
      ret true
    end
  end.

(** [while b[0:1] == b'\r' or b[0:1] == b'\n': b = b[1:]] *)
Fixpoint strip_leading_newlines (l : bytes) : bytes :=
  match l with
  | x :: t =>
    if bool_decide (x = CR) || bool_decide (x = LF)
    then strip_leading_newlines t else l
  | [] => []
  end.

Definition __set_xml_response (message_body : bytes) : M bool :=
  modify (set_response_type (Some (slit "xml"))) ;;;
  _message_body <~ lift (decode_utf8 message_body) ;;
  if (length _message_body =? 0)%nat then ret true
  else
    modify (set_response_body (Some _message_body)) ;;;
    let _message_body := strip_leading_newlines message_body in
    if (length _message_body =? 0)%nat then ret true
    else
      match etree_fromstring _message_body with
      | ParseError msg =>
        modify (set_msg (Some (slit "ElementTree.fromstring ParseError: " ++ msg))) ;;;
        ret false
      | Parsed element =>
        modify (set_xml_element_root (Some element)) ;;;
        ret true
      | FromstringRaised e => raise (OtherException e)
      end.

Definition set_text_response (tag : string) (message_body : bytes) : M bool :=
  modify (set_response_type (Some (slit tag))) ;;;
  _message_body <~ lift (decode_utf8 message_body) ;;
  if (length _message_body =? 0)%nat then ret true
  else
    modify (set_response_body (Some _message_body)) ;;;
    ret true.

Definition __set_json_response : bytes -> M bool := set_text_response "json".
Definition __set_html_response : bytes -> M bool := set_text_response "html".
Definition __set_txt_response : bytes -> M bool := set_text_response "txt".

Definition __set_response (response : HTTPResponse) : M bool :=
  let message_body := read response in
  self <~ get ;;
  match _message self with
  | None => raise AttributeError
  | Some message =>
    let content_type := get_content_type message in
    if bool_decide (content_type = []) then
      (if bool_decide (_msg self = None)
       then modify (set_msg (Some (slit "no content-type response header")))
       else ret tt) ;;;
      ret false
    else if bool_decide (content_type = slit "application/octet-stream") then
      __set_stream_response response message_body
    else if bool_decide (content_type = slit "application/xml")
            || bool_decide (content_type = slit "text/xml") then
      __set_xml_response message_body
    else if bool_decide (content_type = slit "application/json") then
      __set_json_response message_body
    else if bool_decide (content_type = slit "text/html") then
      __set_html_response message_body
    else if bool_decide (content_type = slit "text/plain") then
      __set_txt_response message_body
    else
      let msg := slit "no handler for content-type: " ++ content_type in
      modify (set_msg (Some msg)) ;;;
      ret false
  end.

(** ['%s' % x] for an attribute that may be [None]. *)
Definition fmt_opt (x : option str) : str := default (slit "None") x.

(** [urllib.request.HTTPErrorProcessor.http_response]: a response outside
    200..299 goes to the error handlers of the opener. *)
Definition http_response (kwargs : Kwargs) (response : HTTPResponse)
  : UrlopenResult :=
  if negb ((200 <=? getcode response)%Z && (getcode response <? 300)%Z) then
    http_error kwargs response
  else Response response.

(** [PanWFapi._urlopen], called with keyword arguments.  The processor it
    gives to the opener has its [https_response] replaced by a function
    that returns the response as it is, and keeps the [http_response] of
    the library: a response to an https request comes back whatever its
    status, a response to an http request goes through [http_response].
    No processor sees the response of another protocol. *)
Definition _urlopen (kwargs : Kwargs) : UrlopenResult :=
  match handlers_open kwargs with
  | Response response =>
    if bool_decide (request_type (req_url (kw_url kwargs)) = Some (slit "http")) then
      http_response kwargs response
    else Response response
  | failure => failure
  end.

Definition __api_request (request_uri : str) (data : Data)
  (hdrs : list (str * str)) : M (option HTTPResponse) :=
  self <~ get ;;
  let url := uri self ++ request_uri in
  data <~ lift (as_bytes encode_utf8 data) ;;
  let request := {| req_url := url; req_data := data; req_headers := hdrs |} in
  let kwargs := {| kw_url := request;
                   kw_context := ssl_context self;
                   kw_timeout := timeout self |} in
  emit (EvUrlopen kwargs) ;;;
  match _urlopen kwargs with
  | CertificateError e =>
    modify (set_msg (Some (slit "ssl.CertificateError: " ++ e))) ;;;
    ret None
  | URLError e =>
    modify (set_msg (Some e)) ;;;
    ret None
  | OpenerRaised e => raise (OtherException e)
  | Response response =>
    modify (set_http_code (Some (getcode response))) ;;;
    modify (set_http_reason (Some (reason response))) ;;;
    (if bool_decide (reason response = []) then
       match _wildfire_responses !! getcode response with
       | Some phrase => modify (set_http_reason (Some phrase))
       | None =>
         match responses !! getcode response with
         | Some phrase => modify (set_http_reason (Some phrase))
         | None => ret tt
         end
       end
     else ret tt) ;;;
    match info response with
    | inl e => raise (PanWFapiError (Some (slit "email.message_from_string() " ++ e)))
    | inr message =>
      modify (set_message (Some message)) ;;;
      self <~ get ;;
      if negb ((200 <=? getcode response)%Z && (getcode response <? 300)%Z) then
        modify (set_msg (Some (slit "HTTP Error " ++ slit (pretty (getcode response))
                               ++ slit ": " ++ fmt_opt (http_reason self)))) ;;;
        __set_response response ;;;
        ret None
      else ret (Some response)
    end
  end.

Definition _read_file (path : str) : M (option bytes) :=
  emit (EvOpen path) ;;;
  match open_rb path with
  | inl e =>
    let msg := slit "open: " ++ path ++ slit ": " ++ e in
    modify (set_msg (Some msg)) ;;;
    ret None
  | inr buf => ret (Some buf)
  end.

(** [raise PanWFapiError(self._msg)] *)
Definition raise_msg {A} : M A :=
  self <~ get ;; raise (PanWFapiError (_msg self)).

(** The two checks that end every operation:
    [if not response: raise ...] and
    [if not self.__set_response(response): raise ...]. *)
Definition check_response (response : option HTTPResponse) : M unit :=
  match response with
  | None => raise_msg
  | Some response =>
    ok <~ __set_response response ;;
    if ok then ret tt else raise_msg
  end.

(** [if v is not None: query[k] = v] *)
Definition query_item (k : string) (v : option str) : list (str * str) :=
  match v with
  | Some x => [(slit k, x)]
  | None => []
  end.

(** [if v is not None: form.add_field(k, v)] *)
Definition add_field_opt (k : string) (v : option str) (form : _MultiPartFormData)
  : Outcome _MultiPartFormData :=
  match v with
  | Some x => add_field (slit k) (Some (DStr x)) form
  | None => Return form
  end.

Definition report (hash format url : option str) : M unit :=
  __clear_response ;;;
  let request_uri := slit "/publicapi/get/report" in
  self <~ get ;;
  let query := [(slit "apikey", api_key self)] ++ query_item "agent" (agent self)
               ++ query_item "hash" hash ++ query_item "format" format
               ++ query_item "url" url in
  response <~ __api_request request_uri (DStr (urlencode query)) [] ;;
  check_response response.

Definition verdict (hash url : option str) : M unit :=
  __clear_response ;;;
  let request_uri := slit "/publicapi/get/verdict" in
  self <~ get ;;
  let query := [(slit "apikey", api_key self)] ++ query_item "agent" (agent self)
               ++ query_item "hash" hash ++ query_item "url" url in
  response <~ __api_request request_uri (DStr (urlencode query)) [] ;;
  check_response response.

Definition verdicts (hashes : option (list str)) : M unit :=
  __clear_response ;;;
  let request_uri := slit "/publicapi/get/verdicts" in
  self <~ get ;;
  let form := _MultiPartFormData_init in
  form <~ lift (add_field (slit "apikey") (Some (DStr (api_key self))) form) ;;
  form <~ lift (add_field_opt "agent" (agent self) form) ;;
  form <~ lift (add_field_opt "file" (sep_join [Byte.to_N LF] <$> hashes) form) ;;
  hdrs <~ lift (http_headers form) ;;
  let data := http_body form in
  response <~ __api_request request_uri (DBytes data) hdrs ;;
  check_response response.

Definition verdicts_changed (date : option str) : M unit :=
  __clear_response ;;;
  let request_uri := slit "/publicapi/get/verdicts/changed" in
  self <~ get ;;
  let query := [(slit "apikey", api_key self)] ++ query_item "agent" (agent self)
               ++ query_item "date" date in
  response <~ __api_request request_uri (DStr (urlencode query)) [] ;;
  check_response response.

Definition sample (hash : option str) : M unit :=
  __clear_response ;;;
  let request_uri := slit "/publicapi/get/sample" in
  self <~ get ;;
  let query := [(slit "apikey", api_key self)] ++ query_item "agent" (agent self)
               ++ query_item "hash" hash in
  response <~ __api_request request_uri (DStr (urlencode query)) [] ;;
  check_response response.

Definition pcap (hash platform : option str) : M unit :=
  __clear_response ;;;
  let request_uri := slit "/publicapi/get/pcap" in
  self <~ get ;;
  let query := [(slit "apikey", api_key self)] ++ query_item "agent" (agent self)
               ++ query_item "hash" hash ++ query_item "platform" platform in
  response <~ __api_request request_uri (DStr (urlencode query)) [] ;;
  check_response response.

Definition testfile (file_type : option str) : M unit :=
  __clear_response ;;;
  let request_uri := slit "/publicapi/test/" ++ default (slit "pe") file_type in
  let query := [] in
  response <~ __api_request request_uri (DStr (urlencode query)) [] ;;
  check_response response.

(** [bool(x)] for [x] that is [None], a [str] or a [list]. *)
Definition py_bool {A} (x : option (list A)) : bool :=
  match x with
  | Some (_ :: _) => true
  | _ => false
  end.

(** [os.path.basename] (posixpath): what follows the last slash. *)
Definition basename (p : str) : str :=
  foldl (fun acc c => if c =? 47 then [] else acc ++ [c]) [] p.

Definition magic : str := slit "panlnk".

Definition precondition_msg : str := slit "must submit one of file, url or links".

(** [sum(bool(x) for x in [file, url, links])] *)
Definition given_count (file url : option str) (links : option (list str)) : nat :=
  sum_list (Nat.b2n <$> [py_bool file; py_bool url; py_bool links]).

(** [submit] from the choice of [request_uri] on. *)
Definition submit_request (file url : option str) (links : option (list str))
  : M unit :=
  request_uri <~
    match file, url, links with
    | Some _, _, _ => ret (slit "/publicapi/submit/file")
    | None, Some _, _ => ret (slit "/publicapi/submit/url")
    | None, None, Some l =>
      if (length l <? 2)%nat then ret (slit "/publicapi/submit/link")
      else ret (slit "/publicapi/submit/links")
    | None, None, None => raise TypeError
    end ;;
  self <~ get ;;
  let form := _MultiPartFormData_init in
  form <~ lift (add_field (slit "apikey") (Some (DStr (api_key self))) form) ;;
  form <~ lift (add_field_opt "agent" (agent self) form) ;;
  form <~ match file with
          | Some path =>
            buf <~ _read_file path ;;
            match buf with
            | None => raise_msg
            | Some buf =>
              let filename := basename path in
              lift (add_file (Some filename) (Some (DBytes buf)) form)
            end
          | None => ret form
          end ;;
  form <~ lift (add_field_opt "url" url form) ;;
  form <~ match links with
          | Some [link] => lift (add_field (slit "link") (Some (DStr link)) form)
          | Some ((first :: _ :: _) as l) =>
            if bool_decide (first = magic) then
              lift (add_file (Some (slit "pan"))
                             (Some (DStr (sep_join [Byte.to_N LF] l))) form)
            else
              lift (add_file (Some (slit "pan"))
                             (Some (DStr (magic ++ [Byte.to_N LF]
                                          ++ sep_join [Byte.to_N LF] l))) form)
          | _ => ret form
          end ;;
  hdrs <~ lift (http_headers form) ;;
  let data := http_body form in
  response <~ __api_request request_uri (DBytes data) hdrs ;;
  check_response response.

Definition submit (file url : option str) (links : option (list str)) : M unit :=
  __clear_response ;;;
  if negb (given_count file url links =? 1)%nat then
    raise (PanWFapiError (Some precondition_msg))
  else submit_request file url links.

Definition change_request (hash verdict email comment : option str) : M unit :=
  __clear_response ;;;
  let request_uri := slit "/publicapi/submit/change-request" in
  self <~ get ;;
  let form := _MultiPartFormData_init in
  form <~ lift (add_field (slit "apikey") (Some (DStr (api_key self))) form) ;;
  form <~ lift (add_field_opt "agent" (agent self) form) ;;
  form <~ lift (add_field_opt "hash" hash form) ;;
  form <~ lift (add_field_opt "verdict" verdict form) ;;
  form <~ lift (add_field_opt "email" email form) ;;
  form <~ lift (add_field_opt "comment" comment form) ;;
  hdrs <~ lift (http_headers form) ;;
  let data := http_body form in
  response <~ __api_request request_uri (DBytes data) hdrs ;;
  check_response response.

(** The public operations with their arguments. *)
Inductive Call :=
| Report (hash format url : option str)
| Verdict (hash url : option str)
| Verdicts (hashes : option (list str))
| VerdictsChanged (date : option str)
| Sample (hash : option str)
| Pcap (hash platform : option str)
| Submit (file url : option str) (links : option (list str))
| ChangeRequest (hash verdict email comment : option str)
| Testfile (file_type : option str).

Definition run (c : Call) : M unit :=
  match c with
  | Report h f u => report h f u
  | Verdict h u => verdict h u
  | Verdicts hs => verdicts hs
  | VerdictsChanged d => verdicts_changed d
  | Sample h => sample h
  | Pcap h p => pcap h p
  | Submit f u l => submit f u l
  | ChangeRequest h v e c => change_request h v e c
  | Testfile t => testfile t
  end.

(** The forms that the constructor and a sequence of [add_field] and
    [add_file] calls make. *)
Inductive built : _MultiPartFormData -> Prop :=
| built_init : built _MultiPartFormData_init
| built_add_field name value form form' :
    built form -> add_field name value form = Return form' -> built form'
| built_add_file filename data form form' :
    built form -> add_file filename data form = Return form' -> built form'.

Definition is_content_disposition (line : bytes) : Prop :=
  blit "Content-Disposition: " `prefix_of` line.

Definition is_content_type (line : bytes) : Prop :=
  blit "Content-Type: " `prefix_of` line.

(** Text that [encode('latin-1')] accepts. *)
Definition latin1 (s : str) : Prop := Forall (fun c => c <= 255) s.



(** A part as it stands between two boundary lines of the body. *)
Definition framed (part : _FormDataPart) : bytes :=
  CRLF ++ sep_join CRLF (headers part) ++ CRLF ++ CRLF
       ++ default [] (body part) ++ CRLF.

(** The instance after [__clear_response]. *)
Definition cleared (self : PanWFapi) : PanWFapi := final (__clear_response self).

(** Overwriting the seven response fields of an instance. *)
Definition with_response_fields (m : option str) (c : option Z) (r b t : option str)
  (x : option Element) (a : option (gmap string Data)) (self : PanWFapi) : PanWFapi :=
  set_msg m (set_http_code c (set_http_reason r (set_response_body b
    (set_response_type t (set_xml_element_root x (set_attachment a self)))))).

End WFapi.

(** ** What the operations have in common

    Every operation ends in the same two steps, the request and the checks
    of the response; these are the words for what it sends, what it raises
    and what it leaves behind. *)

Section Exchange.

Context {platform : Platform}.

Implicit Types self : PanWFapi.

(** The tag that goes with a textual content type. *)
Definition text_tags : list (str * string) :=
  [(slit "application/xml", "xml"); (slit "text/xml", "xml");
   (slit "application/json", "json"); (slit "text/html", "html");
   (slit "text/plain", "txt")]%string.

(** The three content types whose body is kept as text and nothing more. *)
Definition plain_text_tags : list (str * string) :=
  [(slit "application/json", "json"); (slit "text/html", "html");
   (slit "text/plain", "txt")]%string.

(** The last two steps of every operation: the request, then the checks. *)
Definition exchange (request_uri : str) (data : Data) (hdrs : list (str * str))
  : M unit :=
  response <~ __api_request request_uri data hdrs ;; check_response response.

(** The keyword arguments that [__api_request] passes to the opener. *)
Definition kwargs_of self (request_uri : str) (payload : bytes)
  (hdrs : list (str * str)) : Kwargs :=
  {| kw_url := {| req_url := uri self ++ request_uri;
                  req_data := payload;
                  req_headers := hdrs |};
     kw_context := ssl_context self;
     kw_timeout := timeout self |}.

(** The instance once status, reason and headers of a response are stored. *)
Definition received self (r : HTTPResponse) (message : Message) : PanWFapi :=
  set_message (Some message)
    (set_http_reason (Some (reason r)) (set_http_code (Some (getcode r)) self)).

(** [200 <= self.http_code < 300] *)
Definition is_2xx (code : Z) : bool := ((200 <=? code) && (code <? 300))%Z.

(** ['HTTP Error %s: %s' % (self.http_code, self.http_reason)], for a
    response that has a reason phrase of its own. *)
Definition http_error_msg (r : HTTPResponse) : str :=
  slit "HTTP Error " ++ slit (pretty (getcode r)) ++ slit ": " ++ reason r.

(** The message of a [PanWFapiError] that an operation raises, with the
    instance [s] it leaves behind: there is one, and it is the one in
    [_msg] unless it is that of the precondition of [submit] or of the
    headers of the response. *)
Definition message_kept (m : option str) (s : PanWFapi) : Prop :=
  exists msg,
    m = Some msg
    /\ (_msg s = Some msg
        \/ msg = precondition_msg
        \/ exists t, msg = slit "email.message_from_string() " ++ t).

(** The exceptions that the model of an operation lets out: [PanWFapiError]
    with its message kept, the encoding and decoding errors, and what the
    opener or the XML parser raised and the module did not catch. *)
Definition raised_with (e : Exn) (s : PanWFapi) : Prop :=
  (exists m, e = PanWFapiError m /\ message_kept m s)
  \/ e = UnicodeEncodeError \/ e = UnicodeDecodeError
  \/ exists t, e = OtherException t.

(** A method run on [self] ends in a result that satisfies [post]. *)
Definition wp {A} (m : M A) (post : Outcome A -> PanWFapi -> list Event -> Prop)
  (self : PanWFapi) : Prop :=
  post (outcome (m self)) (final (m self)) (activity (m self)).

(** The activity of an exchange: the one request, or nothing when the body
    of the request cannot be encoded. *)
Definition one_request self (request_uri : str) (data : Data)
  (hdrs : list (str * str)) (ev : list Event) : Prop :=
  match as_bytes encode_utf8 data with
  | Return payload => ev = [EvUrlopen (kwargs_of self request_uri payload hdrs)]
  | Raise _ => ev = []
  end.

(** The attempt to open the file of a submission, if there is one. *)
Definition opens (file : option str) : list Event :=
  match file with
  | Some path => [EvOpen path]
  | None => []
  end.

(** The [file] argument of a call: only [submit] has one. *)
Definition submitted_file (c : Call) : option str :=
  match c with
  | Submit file _ _ => file
  | _ => None
  end.

(** What running an operation on [self] ends in. *)
Definition run_post self (c : Call) (o : Outcome unit) (s : PanWFapi)
  (ev : list Event) : Prop :=
  (exists path payload hdrs,
     ev `sublist_of`
       opens (submitted_file c)
       ++ [EvUrlopen (kwargs_of self (slit "/publicapi/" ++ path) payload hdrs)])
  /\ match o with
     | Return _ =>
       (exists code, http_code s = Some code /\ is_2xx code = true)
       /\ _msg s = None /\ exists kwargs, EvUrlopen kwargs ∈ ev
     | Raise e => raised_with e s
     end.

(** Activity that is: opening [file], if any, and then one request to
    [request_uri] whose body is that of a form ending in [part], under the
    Content-Type header of the form. *)
Definition sends self (file : option str) (request_uri : str)
  (part : _FormDataPart) (ev : list Event) : Prop :=
  exists form hdrs,
    ev = opens file ++ [EvUrlopen (kwargs_of self request_uri (http_body form) hdrs)]
    /\ built form
    /\ http_headers form = Return hdrs
    /\ last (parts form) = Some part.

(** The part of a field: the Content-Disposition line with its name, and
    the value. *)
Definition field_part (name : string) (payload : bytes) : _FormDataPart :=
  {| headers := [blit "Content-Disposition: form-data; name=" ++ [DQUOTE]
                   ++ blit name ++ [DQUOTE]];
     body := Some payload |}.

(** The part of an uploaded file. *)
Definition file_part (filename payload : bytes) : _FormDataPart :=
  {| headers := [blit "Content-Disposition: form-data; name=" ++ [DQUOTE]
                   ++ blit "file" ++ [DQUOTE] ++ blit "; filename=" ++ [DQUOTE]
                   ++ filename ++ [DQUOTE];
                 blit "Content-Type: application/octet-stream"];
     body := Some payload |}.

(** [given k v] is the field that an argument [v] makes, if it is not
    [None]. *)
Definition given (k : string) (v : option str) : list (string * str) :=
  match v with
  | Some x => [(k, x)]
  | None => []
  end.

(** [part] is the field with the name and the Latin-1 bytes of [kv]. *)
Definition is_field (part : _FormDataPart) (kv : string * str) : Prop :=
  exists payload, encode_latin1 kv.2 = Return payload /\ part = field_part kv.1 payload.

End Exchange.

(** ** The constructor *)

(** The [timeout] argument: an [int], or a [str] as the command line
    gives it. *)
Inductive TimeoutArg :=
| TInt (z : Z)
| TStr (s : str).

(** What [__init__] takes from outside the module. *)
Class Startup := {
  (** [int(s)] of a [str]; [None] is [ValueError] *)
  int_of_str : str -> option Z;
  (** whether [ssl.SSLContext] exists *)
  ssl_has_SSLContext : bool;
  (** [_have_certifi]: whether [import certifi] succeeded *)
  _have_certifi : bool;
  (** [self._certifi_ssl_context()] *)
  _certifi_ssl_context : SSLContext;
  (** [pan.rc.PanRc(tag=tag, init_panrc=init_panrc).panrc]; [inl msg] is
      [PanRcError] with [str(msg) = msg] *)
  PanRc : option str -> gmap string str -> str + gmap string str
}.

(** A constructed instance: [tag] and [hostname], which no method reads,
    and the fields the methods work on.  The response fields, which
    [__init__] leaves unset, are [None] here. *)
Record Constructed := {
  tag : option str;
  hostname : str;
  instance : PanWFapi
}.

(** [_cloud_server] *)
Definition _cloud_server : str := slit "wildfire.paloaltonetworks.com".

(** [int(x)] *)
Definition int {startup : Startup} (x : TimeoutArg) : option Z :=
  match x with
  | TInt z => Some z
  | TStr s => int_of_str s
  end.

(** ['%s' % x] *)
Definition fmt_timeout (x : TimeoutArg) : str :=
  match x with
  | TInt z => slit (pretty z)
  | TStr s => s
  end.

(** [if v is not None: init_panrc[k] = v] *)
Definition panrc_item (k : string) (v : option str) (d : gmap string str)
  : gmap string str :=
  match v with
  | Some x => <[k := x]> d
  | None => d
  end.

(** [PanWFapi.__init__]; [http] is the truth value of the argument. *)
Definition __init__ {startup : Startup} (tag hostname api_key : option str)
  (timeout : option TimeoutArg) (http : bool) (ssl_context : option SSLContext)
  (agent : option str) : Outcome Constructed :=
  timeout <--
    match timeout with
    | Some t =>
      match int t with
      | Some z =>
        if negb (0 <? z)%Z then
          Raise (PanWFapiError (Some (slit "Invalid timeout: " ++ fmt_timeout (TInt z))))
        else Return (Some z)
      | None =>
        Raise (PanWFapiError (Some (slit "Invalid timeout: " ++ fmt_timeout t)))
      end
    | None => Return None
    end ;;
  ssl_context <--
    match ssl_context with
    | Some context =>
      if ssl_has_SSLContext then Return (Some context)
      else Raise (PanWFapiError (Some (slit "SSL module has no SSLContext()")))
    | None =>
      if _have_certifi then Return (Some _certifi_ssl_context) else Return None
    end ;;
  let init_panrc : gmap string str := ∅ in
  let init_panrc := panrc_item "hostname" hostname init_panrc in
  let init_panrc := panrc_item "api_key" api_key init_panrc in
  let init_panrc := panrc_item "agent" agent init_panrc in
  match PanRc tag init_panrc with
  | inl msg => Raise (PanWFapiError (Some msg))
  | inr panrc =>
    let api_key := panrc !! "api_key" in
    let agent := match panrc !! "agent" with
                 | Some a => Some a
                 | None => agent
                 end in
    let hostname := default _cloud_server (panrc !! "hostname") in
    match api_key with
    | None => Raise (PanWFapiError (Some (slit "api_key required")))
    | Some api_key =>
      let uri := if http then slit "http://" ++ hostname
                 else slit "https://" ++ hostname in
      Return {| tag := tag; hostname := hostname;
                instance := {| uri := uri; api_key := api_key; agent := agent;
                               timeout := timeout; ssl_context := ssl_context;
                               _msg := None; http_code := None;
                               http_reason := None; response_body := None;
                               response_type := None; xml_element_root := None;
                               attachment := None; _message := None |} |}
    end
  end.

(** The scheme that the [http] argument selects. *)
Definition scheme (http : bool) : str :=
  if http then slit "http://" else slit "https://".

(** ** A small platform and client to run the model on *)

Module Demo.

(** Parses the one document [<a/>]; anything else is a [ParseError]. *)
Definition fromstring (b : bytes) : Fromstring :=
  if bool_decide (b = blit "<a/>") then Parsed (Elem (slit "a") [] None [] None)
  else ParseError (slit "syntax error: line 1, column 0").

Definition http_responses : gmap Z str :=
  {[ 200%Z := slit "OK"; 404%Z := slit "Not Found"; 418%Z := slit "I'm a Teapot" ]}.

(** No quoting: enough for keys and values without reserved characters. *)
Definition urlencode_plain (query : list (str * str)) : str :=
  sep_join (slit "&") ((fun kv => kv.1 ++ slit "=" ++ kv.2) <$> query).

Definition teapot : HTTPResponse :=
  {| getcode := 418; reason := [];
     info := inr {| content_type := Some (slit "text/plain");
                    disposition_filename := None; content_type_name := None |};
     read := blit "unsupported file type" |}.

Definition sample_path : str := slit "/tmp/sample.exe".

Definition open_file (path : str) : str + bytes :=
  if bool_decide (path = sample_path) then inr (blit "MZ")
  else inl (slit "[Errno 2] No such file or directory").

(** [HTTPDefaultErrorHandler]: every response outside 200..299 is raised
    as [HTTPError], whose text is 'HTTP Error <code>: <reason>'. *)
Definition HTTPError (_ : Kwargs) (r : HTTPResponse) : UrlopenResult :=
  URLError (slit "HTTP Error " ++ slit (pretty (getcode r)) ++ slit ": " ++ reason r).

Definition platform : Platform :=
  {| encode_rfc2231 := fun value charset => charset ++ slit "''" ++ value;
     os_urandom := fun n => Some (replicate n x00);
     random_randrange := fun _ _ => 0;
     etree_fromstring := fromstring;
     responses := http_responses;
     urlencode := urlencode_plain;
     handlers_open := fun _ => Response teapot;
     http_error := HTTPError;
     open_rb := open_file |}.

(** A client that holds the result of an earlier successful call. *)
Definition client : PanWFapi :=
  {| uri := slit "https://wildfire.paloaltonetworks.com";
     api_key := slit "ABC123"; agent := None; timeout := None;
     ssl_context := None;
     _msg := None; http_code := Some 200%Z; http_reason := Some (slit "OK");
     response_body := Some (slit "<a/>");
     response_type := Some (slit "xml");
     xml_element_root := Some (Elem (slit "a") [] None [] None);
     attachment := None;
     _message := Some {| content_type := Some (slit "text/xml");
                         disposition_filename := None;
                         content_type_name := None |} |}.

(** The message of a Content-Type header without parameters and, with
    [filename], of a Content-Disposition header that gives it. *)
Definition message_of (content_type : string) (filename : option str) : Message :=
  {| content_type := Some (slit content_type);
     disposition_filename := filename; content_type_name := None |}.

(** The client in the middle of a call: fields cleared, headers of the
    response stored. *)
Definition receiving (content_type : string) (filename : option str) : PanWFapi :=
  set_message (Some (message_of content_type filename))
              (cleared client).

Definition response_of (content_type : string) (filename : option str)
  (content : bytes) : HTTPResponse :=
  {| getcode := 200; reason := slit "OK";
     info := inr (message_of content_type filename);
     read := content |}.

Definition init : _MultiPartFormData := _MultiPartFormData_init (platform := platform).

Definition form_of (o : Outcome _MultiPartFormData) : _MultiPartFormData :=
  match o with
  | Return form => form
  | Raise _ => init
  end.

(** [form.add_field('apikey', 'ABC123')] *)
Definition apikey_form : _MultiPartFormData :=
  form_of (add_field (platform := platform) (slit "apikey")
                     (Some (DStr (slit "ABC123"))) init).

(** A field whose value holds the delimiter line of the form. *)
Definition colliding_form : _MultiPartFormData :=
  form_of (add_field (platform := platform) (slit "note")
                     (Some (DBytes (blit "--" ++ boundary init))) init).

(** [form.add_file(filename='pan')]: a file part without a body. *)
Definition bodiless_file_form : _MultiPartFormData :=
  form_of (add_file (platform := platform) (Some (slit "pan")) None init).

Definition two_links : list str :=
  [slit "http://a.example/"; slit "http://b.example/"].

(** The form that [submit(links=two_links)] sends. *)
Definition links_form : _MultiPartFormData :=
  form_of (add_file (platform := platform) (Some (slit "pan"))
             (Some (DBytes (blit "panlnk" ++ [LF] ++ blit "http://a.example/"
                              ++ [LF] ++ blit "http://b.example/")))
             apikey_form).

(** The URL and the body of each request in a list of activity. *)
Definition sent (ev : list Event) : list (str * bytes) :=
  ev ≫= fun e => match e with
                 | EvUrlopen kwargs => [(req_url (kw_url kwargs), req_data (kw_url kwargs))]
                 | EvOpen _ => []
                 end.

End Demo.

(** ** More answers of the service, and a configuration *)

Module Scenario.

(** The small platform with a service that gives [answer] to every
    request. *)
Definition answering (answer : UrlopenResult) : Platform :=
  {| encode_rfc2231 := encode_rfc2231 (Platform := Demo.platform);
     os_urandom := os_urandom (Platform := Demo.platform);
     random_randrange := random_randrange (Platform := Demo.platform);
     etree_fromstring := Demo.fromstring;
     responses := Demo.http_responses;
     urlencode := Demo.urlencode_plain;
     handlers_open := fun _ => answer;
     http_error := Demo.HTTPError;
     open_rb := Demo.open_file |}.

Definition answer_of (code : Z) (phrase content_type : string) (content : bytes)
  : HTTPResponse :=
  {| getcode := code; reason := slit phrase;
     info := inr (Demo.message_of content_type None);
     read := content |}.

(** The request of [sample(hash='0a1b')]. *)
Definition sample_query : str := slit "apikey=ABC123&hash=0a1b".




(** The headers of a response without a Content-Type header. *)
Definition untyped : Message :=
  {| content_type := None; disposition_filename := None;
     content_type_name := None |}.

(** [PanWFapi(api_key='ABC123', http=True)], before its first call. *)
Definition http_client : PanWFapi :=
  {| uri := slit "http://wildfire.paloaltonetworks.com";
     api_key := slit "ABC123"; agent := None; timeout := None;
     ssl_context := None;
     _msg := None; http_code := None; http_reason := None;
     response_body := None; response_type := None;
     xml_element_root := None; attachment := None; _message := None |}.

(** No configuration file: the configuration is what the constructor was
    given. *)
Definition startup : Startup :=
  {| int_of_str := fun s => if bool_decide (s = slit "30") then Some 30%Z else None;
     ssl_has_SSLContext := true;
     _have_certifi := false;
     _certifi_ssl_context := SSLContextObject 0;
     PanRc := fun _ init_panrc => inr init_panrc |}.

(** [PanWFapi(api_key='ABC123', timeout='30')] *)
Definition constructed : Constructed :=
  {| tag := None; hostname := slit "wildfire.paloaltonetworks.com";
     instance := {| uri := slit "https://wildfire.paloaltonetworks.com";
                    api_key := slit "ABC123"; agent := None;
                    timeout := Some 30%Z; ssl_context := None;
                    _msg := None; http_code := None; http_reason := None;
                    response_body := None; response_type := None;
                    xml_element_root := None; attachment := None;
                    _message := None |} |}.

End Scenario.

Arguments slit : simpl never.
Arguments blit : simpl never.

(** ** Properties *)

Section Properties.

Context {platform : Platform}.

Implicit Types (self : PanWFapi) (response : HTTPResponse).

(** *** Running the methods *)

Lemma clear_response_eq self :
  __clear_response self = (Return tt, cleared self, []).
Proof. reflexivity. Qed.

Lemma cleared_fields self :
  _msg (cleared self) = None /\ http_code (cleared self) = None
  /\ http_reason (cleared self) = None /\ response_body (cleared self) = None
  /\ response_type (cleared self) = None /\ xml_element_root (cleared self) = None
  /\ attachment (cleared self) = None.
Proof. repeat split. Qed.

Lemma cleared_idemp self : cleared (cleared self) = cleared self.
Proof. reflexivity. Qed.

Lemma bind_get {A} (k : PanWFapi -> M A) self :
  (x <~ get ;; k x) self = k self self.
Proof. unfold bind, get. by destruct (k self self) as [[o s] ev]. Qed.

Lemma bind_ret {A B} (a : A) (k : A -> M B) self :
  (x <~ ret a ;; k x) self = k a self.
Proof. unfold bind, ret. by destruct (k a self) as [[o s] ev]. Qed.

Lemma bind_modify {A} f (m : M A) self :
  (modify f ;;; m) self = m (f self).
Proof. unfold bind, modify. by destruct (m (f self)) as [[o s] ev]. Qed.

Lemma bind_raise {A B} e (k : A -> M B) self :
  (x <~ raise e ;; k x) self = (Raise e, self, []).
Proof. reflexivity. Qed.

Lemma bind_lift_return {A B} (a : A) (k : A -> M B) self :
  (x <~ lift (Return a) ;; k x) self = k a self.
Proof. unfold bind, lift. by destruct (k a self) as [[o s] ev]. Qed.

Lemma bind_lift_raise {A B} e (k : A -> M B) self :
  (x <~ lift (Raise e) ;; k x) self = (Raise e, self, []).
Proof. reflexivity. Qed.

Lemma bind_emit {A} e (m : M A) self :
  (emit e ;;; m) self = (outcome (m self), final (m self), e :: activity (m self)).
Proof. unfold bind, emit. by destruct (m self) as [[o s] ev]. Qed.

Lemma bind_clear {A} (m : M A) self :
  (__clear_response ;;; m) self = m (cleared self).
Proof.
  unfold bind at 1. rewrite clear_response_eq.
  destruct (m (cleared self)) as [[o s] ev]. reflexivity.
Qed.

(** *** The precondition of [submit] and the classification of responses *)

(** C3 (amended): when [file] and [url] both have a truthy value (not
    [None], not empty), or none of [file], [url], [links] is given,
    [submit] raises [PanWFapiError] with the message
    'must submit one of file, url or links'; it has attempted no file read
    and no request, and leaves the instance with its response fields
    cleared. *)
Theorem submit_precondition_error self file url links :
  (py_bool file = true /\ py_bool url = true)
  \/ (file = None /\ url = None /\ links = None) ->
  submit file url links self
  = (Raise (PanWFapiError (Some (slit "must submit one of file, url or links"))),
     cleared self, []).
Proof.
  intros Hgiven. unfold submit. rewrite bind_clear.
  assert ((given_count file url links =? 1)%nat = false) as ->; [|reflexivity].
  apply Nat.eqb_neq. unfold given_count.
  destruct Hgiven as [[-> ->]|(-> & -> & ->)]; cbn; [destruct (py_bool links)|]; cbn; lia.
Qed.


(** C7: a response declared text/xml or application/xml with an empty body
    classifies successfully: [__set_response] returns [True], sets only the
    response-type tag, and leaves the XML root, the response body and the
    message as they were (unset after [__clear_response]). *)
Theorem xml_empty_body_success self response message :
  _message self = Some message ->
  get_content_type message = slit "text/xml"
  \/ get_content_type message = slit "application/xml" ->
  read response = [] ->
  let r := __set_response response self in
  outcome r = Return true /\ activity r = []
  /\ final r = set_response_type (Some (slit "xml")) self
  /\ xml_element_root (final r) = xml_element_root self
  /\ response_body (final r) = response_body self
  /\ _msg (final r) = _msg self.
Proof.
  intros Hm Hct Hbody r. subst r.
  unfold __set_response. rewrite bind_get, Hm, Hbody.
  destruct Hct as [-> | ->]; repeat split.
Qed.


Lemma ret_eq {A} (a : A) self : ret a self = (Return a, self, []).
Proof. reflexivity. Qed.

Lemma raise_eq {A} e self : raise (A:=A) e self = (Raise e, self, []).
Proof. reflexivity. Qed.

Lemma modify_eq f self : modify f self = (Return tt, f self, []).
Proof. reflexivity. Qed.

Ltac mstep :=
  repeat first
    [ rewrite bind_get | rewrite bind_modify | rewrite bind_ret | rewrite bind_raise
    | rewrite bind_lift_return | rewrite bind_lift_raise | rewrite bind_clear
    | rewrite ret_eq | rewrite raise_eq | rewrite modify_eq ].

Ltac mcase :=
  match goal with
  | |- context [bind (lift ?o) _ _] => destruct o eqn:?
  | |- context [bind (if ?b then _ else _) _ _] => destruct b eqn:?
  | |- context [bind (match ?x with _ => _ end) _ _] => destruct x eqn:?
  | |- context [(if ?b then _ else _) ?s] => destruct b eqn:?
  | |- context [(match ?x with _ => _ end) ?s] => destruct x eqn:?
  end.

Ltac munfold :=
  unfold __set_stream_response, __set_xml_response, __set_json_response,
    __set_html_response, __set_txt_response, set_text_response.

(** [__set_response] attempts no file or network activity and touches only
    [_msg], [response_type], [response_body], [xml_element_root] and
    [attachment]. *)
Lemma set_response_frame response self :
  let r := __set_response response self in
  activity r = [] /\ http_code (final r) = http_code self
  /\ http_reason (final r) = http_reason self
  /\ _message (final r) = _message self.
Proof.
  cbn zeta. unfold __set_response.
  repeat (mstep; munfold; mcase).
  all: mstep; repeat split; cbn; congruence.
Qed.



(** C6: every public operation starts by clearing the response fields.
    After [__clear_response] the seven fields are [None]; an operation run
    on an instance does what it does on the cleared instance; and so its
    outcome, its activity and the instance it leaves do not depend on the
    response fields that a previous call left. *)
Theorem operations_clear_response_first (c : Call) self :
  (_msg (cleared self) = None /\ http_code (cleared self) = None
   /\ http_reason (cleared self) = None /\ response_body (cleared self) = None
   /\ response_type (cleared self) = None /\ xml_element_root (cleared self) = None
   /\ attachment (cleared self) = None)
  /\ run c self = run c (cleared self)
  /\ (forall m code r b t x a,
        run c (with_response_fields m code r b t x a self) = run c self).
Proof.
  split; [apply cleared_fields|].
  assert (forall s, run c s = run c (cleared s)) as Hrun.
  { intros s.
    destruct c; cbn [run];
      unfold report, verdict, verdicts, verdicts_changed, sample, pcap, submit,
        change_request, testfile;
      rewrite !bind_clear; reflexivity. }
  split; [apply Hrun|].
  intros. rewrite (Hrun (with_response_fields _ _ _ _ _ _ _ _)), (Hrun self).
  reflexivity.
Qed.


(** *** The reason phrase *)

Lemma final_bind_ret {A B} (m : M A) (b : B) self :
  final ((m ;;; ret b) self) = final (m self).
Proof. unfold bind. by destruct (m self) as [[[a|e] s] ev]. Qed.

Lemma final_triple {A} (o : Outcome A) self ev : final (o, self, ev) = self.
Proof. reflexivity. Qed.

(** The responses that [_urlopen] hands to its caller: every response to
    an https request, and a response with a status in 200..299 whatever
    the scheme. *)
Lemma urlopen_response kwargs r :
  handlers_open kwargs = Response r ->
  request_type (req_url (kw_url kwargs)) = Some (slit "https")
  \/ (200 <= getcode r < 300)%Z ->
  _urlopen kwargs = Response r.
Proof.
  intros Hopen Hpass. unfold _urlopen. rewrite Hopen.
  destruct (bool_decide _) eqn:Hhttp; [|done].
  apply bool_decide_eq_true_1 in Hhttp.
  destruct Hpass as [Hs|Hcode]; [rewrite Hs in Hhttp; discriminate Hhttp|].
  unfold http_response.
  destruct (Z.leb_spec 200 (getcode r)); [|lia].
  destruct (Z.ltb_spec (getcode r) 300); [done|lia].
Qed.

(** A response to an http request with a status outside 200..299 goes to
    the error handlers of the opener. *)
Lemma urlopen_http_error kwargs r :
  handlers_open kwargs = Response r ->
  request_type (req_url (kw_url kwargs)) = Some (slit "http") ->
  ~ (200 <= getcode r < 300)%Z ->
  _urlopen kwargs = http_error kwargs r.
Proof.
  intros Hopen Hhttp Hcode. unfold _urlopen. rewrite Hopen, Hhttp.
  rewrite bool_decide_eq_true_2 by done. unfold http_response.
  destruct (Z.leb_spec 200 (getcode r)); [|done].
  destruct (Z.ltb_spec (getcode r) 300); [lia|done].
Qed.

(** The substitution of the reason phrase, where it is reached: when the
    opener hands the client a response that carries an empty reason
    phrase, which it does for every response to an https request and for a
    response with a status in 200..299, [__api_request] stores a phrase
    looked up by status code: 418 gives
    'Unsupported File Type' whatever [http.client.responses] holds for it;
    any other code found in [http.client.responses] gives its phrase there;
    a code found in neither table leaves the empty phrase.  The status
    code is stored as received. *)
Theorem empty_reason_substituted self request_uri data hdrs payload r :
  as_bytes encode_utf8 data = Return payload ->
  handlers_open {| kw_url := {| req_url := uri self ++ request_uri;
                                req_data := payload;
                                req_headers := hdrs |};
                   kw_context := ssl_context self;
                   kw_timeout := timeout self |} = Response r ->
  request_type (uri self ++ request_uri) = Some (slit "https")
  \/ (200 <= getcode r < 300)%Z ->
  reason r = [] ->
  let self' := final (__api_request request_uri data hdrs self) in
  http_code self' = Some (getcode r)
  /\ (getcode r = 418%Z -> http_reason self' = Some (slit "Unsupported File Type"))
  /\ (getcode r <> 418%Z ->
      forall phrase, responses !! getcode r = Some phrase ->
                     http_reason self' = Some phrase)
  /\ (getcode r <> 418%Z -> responses !! getcode r = None ->
      http_reason self' = Some []).
Proof.
  intros Henc Hfetch Hpass Hreason. cbn zeta.
  pose proof (urlopen_response _ r Hfetch Hpass) as Hopen.
  assert (http_code (final (__api_request request_uri data hdrs self))
          = Some (getcode r)
          /\ http_reason (final (__api_request request_uri data hdrs self))
            = Some match _wildfire_responses !! getcode r with
                   | Some phrase => phrase
                   | None => match responses !! getcode r with
                             | Some phrase => phrase
                             | None => []
                             end
                   end) as [Hcode Hphrase].
  { unfold __api_request. rewrite bind_get, Henc, bind_lift_return, bind_emit.
    rewrite final_triple, Hopen, !bind_modify, Hreason.
    rewrite bool_decide_eq_true_2 by done.
    destruct (_wildfire_responses !! getcode r) as [p|];
      [|destruct (responses !! getcode r) as [p|]]; mstep.
    all: destruct (info r) as [e|message]; mstep; [done|].
    all: destruct (negb _); mstep; [|done].
    all: rewrite final_bind_ret.
    all: match goal with
         | |- context [__set_response ?resp ?s] =>
           destruct (set_response_frame resp s) as (_ & -> & -> & _)
         end; done. }
  rewrite Hcode, Hphrase. split; [done|]. repeat split.
  - intros ->. reflexivity.
  - intros Hne phrase Hp. unfold _wildfire_responses.
    rewrite lookup_singleton_ne by done. rewrite Hp. reflexivity.
  - intros Hne Hp. unfold _wildfire_responses.
    rewrite lookup_singleton_ne, Hp by done. reflexivity.
Qed.

(** *** What a classified response populates *)

Lemma decode_utf8_cons a t s : decode_utf8 (a :: t) = Return s -> s <> [].
Proof.
  intros H. cbn [decode_utf8] in H.
  repeat match type of H with
         | context [if ?b then _ else _] => destruct b
         | context [match ?l with [] => _ | _ :: _ => _ end] => destruct l
         | context [obind ?m _] => destruct m; cbn [obind] in H
         end; try discriminate; by inversion H.
Qed.

Lemma decode_utf8_empty l : decode_utf8 l = Return [] <-> l = [].
Proof.
  split; [|by intros ->].
  destruct l as [|a t]; [done|]. intros H. by apply decode_utf8_cons in H.
Qed.

Lemma decode_len0 l s : decode_utf8 l = Return s -> length s = 0%nat -> l = [].
Proof. intros H ->%nil_length_inv. by apply decode_utf8_empty. Qed.

Lemma decode_len_pos l s : decode_utf8 l = Return s -> length s <> 0%nat -> l <> [].
Proof. intros H Hs ->. by injection H as <-. Qed.

(** C1 (amended): after a successful classification that started from
    cleared response fields, an application/octet-stream response
    populates [attachment] only and leaves the response-type tag unset;
    every other accepted type sets the tag, never populates [attachment],
    and populates [response_body] exactly when the body is not empty;
    [xml_element_root] is populated only for an XML type and then together
    with [response_body].  For an XML, JSON, HTML or plain-text response
    with an empty body, classification returns [True] having set the tag
    only. *)
Theorem classification_populates self response message :
  _message self = Some message ->
  response_body self = None -> attachment self = None ->
  xml_element_root self = None -> response_type self = None ->
  let ct := get_content_type message in
  (read response = [] ->
   forall tag, (ct, tag) ∈ [(slit "application/xml", "xml"); (slit "text/xml", "xml");
                            (slit "application/json", "json"); (slit "text/html", "html");
                            (slit "text/plain", "txt")] ->
   __set_response response self
   = (Return true, set_response_type (Some (slit tag)) self, []))
  /\ (forall self' ev,
      __set_response response self = (Return true, self', ev) ->
      (ct = slit "application/octet-stream" ->
       attachment self' <> None /\ response_body self' = None
       /\ xml_element_root self' = None /\ response_type self' = None)
      /\ (ct <> slit "application/octet-stream" ->
          attachment self' = None /\ response_type self' <> None
          /\ (response_body self' = None <-> read response = [])
          /\ (xml_element_root self' <> None ->
              response_body self' <> None /\ response_type self' = Some (slit "xml")
              /\ (ct = slit "application/xml" \/ ct = slit "text/xml")))).
Proof.
  intros Hm Hb Ha Hx Ht. cbn zeta. split.
  - intros Hempty tag Hin. unfold __set_response. rewrite bind_get, Hm, Hempty.
    repeat (apply elem_of_cons in Hin as [[= -> ->]|Hin]; [reflexivity|]).
    by apply elem_of_nil in Hin.
  - intros self' ev. unfold __set_response. rewrite bind_get, Hm.
    repeat (mstep; munfold; mcase).
    all: mstep; intros [= <- <-].
    all: repeat match goal with
         | H : bool_decide _ = true |- _ => apply bool_decide_eq_true_1 in H
         | H : bool_decide _ = false |- _ => apply bool_decide_eq_false_1 in H
         | H : (_ =? _)%nat = true |- _ => apply Nat.eqb_eq in H
         | H : (_ =? _)%nat = false |- _ => apply Nat.eqb_neq in H
         | H : _ || _ = true |- _ => apply orb_true_iff in H
         | H : _ || _ = false |- _ => apply orb_false_iff in H
         end.
    all: cbn; rewrite ?Hb, ?Ha, ?Hx, ?Ht.
    all: (split; intros ?); try contradiction; try congruence.
    all: repeat split; try done; try congruence.
    all: try (intros; exfalso; eapply decode_len_pos; by eauto).
    all: try (intros; eapply decode_len0; by eauto).
    all: match goal with
         | H : _ \/ _ |- _ \/ _ =>
           destruct H as [H|H]; apply bool_decide_eq_true_1 in H; auto
         end.
Qed.
(** *** The body of a form, and splitting it on the boundary *)

Lemma split_from_skip sep cur a rest :
  split_from sep (length a) cur (a ++ rest) = split_from sep 0 cur rest.
Proof.
  induction a as [|x a IH]; [done|]. cbn. exact IH.
Qed.

Lemma split_from_match sep cur rest :
  sep <> [] ->
  split_from sep 0 cur (sep ++ rest) = cur :: split_from sep 0 [] rest.
Proof.
  destruct sep as [|x s]; [done|]. intros _.
  cbn [split_from app]. rewrite bool_decide_eq_true_2.
  - cbn [length pred]. by rewrite split_from_skip.
  - by exists rest.
Qed.

Lemma split_from_no_match sep cur pre tail :
  first_at sep pre tail ->
  split_from sep 0 cur (pre ++ tail) = split_from sep 0 (cur ++ pre) tail.
Proof.
  revert cur. induction pre as [|x pre IH]; intros cur Hfirst.
  - by rewrite app_nil_r.
  - cbn [split_from app]. rewrite bool_decide_eq_false_2.
    + rewrite IH, <- app_assoc; [done|].
      intros a b Hab. specialize (Hfirst (x :: a) b). cbn in Hfirst.
      rewrite Hab in Hfirst. specialize (Hfirst eq_refl). lia.
    + intros [b Hb]. specialize (Hfirst [] b Hb). cbn in Hfirst. lia.
Qed.

Lemma occurrence_avoids c (sep u v a b : bytes) :
  c ∉ sep -> u ++ c :: v = a ++ sep ++ b ->
  (exists m, u = a ++ sep ++ m) \/ (exists m, a = u ++ c :: m /\ v = m ++ sep ++ b).
Proof.
  intros Hc Heq. apply app_eq_inv in Heq as [(k & -> & Hk)|(k & -> & Hk)].
  - symmetry in Hk. apply app_eq_inv in Hk as [(k' & -> & Hk')|(k' & -> & Hk')].
    + left. by exists k'.
    + destruct k' as [|y k'].
      * left. exists []. by rewrite !app_nil_r.
      * injection Hk' as -> ->. exfalso. apply Hc. set_solver.
  - destruct k as [|y k].
    + cbn in Hk. destruct sep as [|y s].
      * left. exists []. by rewrite !app_nil_r.
      * injection Hk as -> ->. exfalso. apply Hc. set_solver.
    + injection Hk as -> ->. right. by exists k.
Qed.

Lemma b64_char_safe n : line_safe (b64_char n) = true.
Proof.
  unfold b64_char.
  destruct (nth_in_or_default (N.to_nat n) b64_alphabet x3d) as [Hin| ->]; [|done].
  revert Hin. generalize (nth (N.to_nat n) b64_alphabet x3d). intros x Hin.
  assert (Forall (fun x => line_safe x = true) b64_alphabet) as Hall
    by (vm_compute; repeat constructor).
  rewrite Forall_forall in Hall. apply Hall. by apply list_elem_of_In.
Qed.

Lemma b64encode_safe s : Forall (fun x => line_safe x = true) (b64encode s).
Proof.
  assert (forall n s, (length s <= n)%nat ->
                      Forall (fun x => line_safe x = true) (b64encode s)) as H.
  { clear s. induction n as [|n IH]; intros s Hn.
    - destruct s; [constructor|cbn in Hn; lia].
    - destruct s as [|a [|c [|d t]]]; cbn [b64encode]; cbn in Hn;
        repeat (constructor; [first [apply b64_char_safe | done]|]);
        try constructor.
      apply IH. lia. }
  by apply (H (length s)).
Qed.

Lemma boundary_safe : Forall (fun x => line_safe x = true) _boundary /\ _boundary <> [].
Proof.
  unfold _boundary. cbn [replicate concat app blit]. split; [|done].
  repeat (constructor; [done|]). apply b64encode_safe.
Qed.

Lemma built_boundary form : built form -> boundary form = _boundary.
Proof.
  induction 1 as [|name value form form' _ IH Hadd|filename data form form' _ IH Hadd];
    [done| |].
  - unfold add_field in Hadd. destruct (_FormDataPart_init name value); [|done].
    by injection Hadd as <-.
  - unfold add_file in Hadd.
    repeat match type of Hadd with
           | obind ?m _ = _ => destruct m; cbn [obind] in Hadd; [|done]
           end.
    by injection Hadd as <-.
Qed.


Lemma occurs_cons c sep u : c ∉ sep -> sep <> [] -> occurs sep (c :: u) -> occurs sep u.
Proof.
  intros Hc Hsep (a & b & Hab).
  apply (occurrence_avoids c sep [] u a b Hc) in Hab as [(m & Hm)|(m & _ & ->)].
  - symmetry in Hm. apply app_eq_nil in Hm as [_ Hm]. by apply app_eq_nil in Hm as [? _].
  - by exists m, b.
Qed.

Lemma occurs_snoc c sep u : c ∉ sep -> sep <> [] -> occurs sep (u ++ [c]) -> occurs sep u.
Proof.
  intros Hc Hsep (a & b & Hab).
  apply (occurrence_avoids c sep u [] a b Hc) in Hab as [(m & ->)|(m & _ & Hm)].
  - by exists a, m.
  - symmetry in Hm. apply app_eq_nil in Hm as [_ Hm]. by apply app_eq_nil in Hm as [? _].
Qed.

Lemma first_at_snoc c sep u tail :
  c ∉ sep -> ~ occurs sep u -> first_at sep (u ++ [c]) tail.
Proof.
  intros Hc Hu a b Hab. rewrite <- app_assoc in Hab. cbn in Hab.
  apply (occurrence_avoids c sep u tail a b Hc) in Hab as [(m & ->)|(m & -> & _)].
  - destruct Hu. by exists a, m.
  - rewrite !length_app. cbn. lia.
Qed.

Lemma line_safe_not_in sep :
  Forall (fun x => line_safe x = true) sep -> (CR ∉ sep) /\ (LF ∉ sep).
Proof.
  rewrite Forall_forall. intros H. split; intros Hin; apply H in Hin; discriminate.
Qed.

Lemma first_at_framed sep s tail :
  Forall (fun x => line_safe x = true) sep -> sep <> [] -> ~ occurs sep s ->
  first_at sep (CRLF ++ s ++ CRLF) tail.
Proof.
  intros [Hcr Hlf]%line_safe_not_in Hsep Hs.
  replace (CRLF ++ s ++ CRLF) with ((CR :: LF :: s ++ [CR]) ++ [LF])
    by (cbn; by rewrite <- app_assoc).
  apply first_at_snoc; [done|].
  intros Hocc. apply Hs.
  apply (occurs_snoc CR); [done..|].
  apply (occurs_cons LF); [done..|]. by apply (occurs_cons CR).
Qed.

Lemma http_body_concat form :
  http_body form
  = concat ((fun part => blit "--" ++ boundary form ++ CRLF ++ serialize part ++ CRLF)
              <$> parts form)
    ++ blit "--" ++ boundary form ++ blit "--".
Proof.
  unfold http_body, bio_getvalue, bio_write, bio_new.
  set (D := blit "--" ++ boundary form).
  assert (forall ps acc,
    foldl (fun bio part => (((bio ++ D) ++ CRLF) ++ serialize part) ++ CRLF) acc ps
    = acc ++ concat ((fun part => D ++ CRLF ++ serialize part ++ CRLF) <$> ps)) as Hfold.
  { induction ps as [|p ps IH]; intros acc; cbn [foldl fmap list_fmap concat].
    - by rewrite app_nil_r.
    - rewrite IH. by rewrite <- !app_assoc. }
  rewrite Hfold. cbn [app]. unfold D. rewrite <- !app_assoc.
  f_equal.
Qed.

Lemma framed_serialize part : CRLF ++ serialize part ++ CRLF = framed part.
Proof.
  unfold framed, serialize, bio_getvalue, bio_write, bio_new.
  destruct (body part); cbn [default app]; by rewrite <- ?app_assoc, ?app_nil_r.
Qed.

Lemma rotate_boundary (D : bytes) (F : _FormDataPart -> bytes) ps :
  concat ((fun p => D ++ F p) <$> ps) ++ D = D ++ concat ((fun p => F p ++ D) <$> ps).
Proof.
  induction ps as [|p ps IH]; cbn [fmap list_fmap concat].
  - by rewrite app_nil_r.
  - by rewrite <- !app_assoc, IH.
Qed.

Lemma split_parts (D : bytes) ps :
  Forall (fun x => line_safe x = true) D -> (2 < length D)%nat ->
  (forall part, part ∈ ps -> ~ occurs D (serialize part)) ->
  split_from D 0 [] (concat ((fun p => (CRLF ++ serialize p ++ CRLF) ++ D) <$> ps)
                     ++ blit "--")
  = (framed <$> ps) ++ [blit "--"].
Proof.
  intros Hsafe Hlen Hparts.
  assert (D <> []) as HD by (intros ->; cbn in Hlen; lia).
  induction ps as [|p ps IH]; cbn [fmap list_fmap concat app].
  - rewrite <- (app_nil_r (blit "--")) at 1.
    rewrite split_from_no_match; [done|].
    intros a b Hab. apply (f_equal length) in Hab.
    rewrite !length_app in Hab. change (length (blit "--")) with 2%nat in *.
    cbn in Hab. lia.
  - rewrite <- !app_assoc. rewrite (app_assoc CRLF), (app_assoc (CRLF ++ _)).
    rewrite <- (app_assoc CRLF).
    rewrite split_from_no_match by (apply first_at_framed; [done..|apply Hparts; set_solver]).
    rewrite split_from_match by done. cbn [app].
    rewrite framed_serialize. f_equal. apply IH. intros; apply Hparts; set_solver.
Qed.


Lemma occurs_elem sep data x : occurs sep data -> x ∈ sep -> x ∈ data.
Proof. intros (a & b & ->) Hx. set_solver. Qed.

(** C2 (amended): [http_body] is, for each part in order, '--' + boundary
    + CRLF + the serialized part + CRLF, followed by '--' + boundary +
    '--' and nothing more.  For a form made by the constructor and a
    sequence of [add_field] and [add_file] calls, if '--' + boundary does
    not occur in the serialized bytes of any part, then splitting the body
    on '--' + boundary gives an empty first piece, then for each part in
    order its header block, the blank line and its body between two CRLF,
    then the closing '--'. *)
Theorem http_body_format_and_split form :
  http_body form
  = concat ((fun part => blit "--" ++ boundary form ++ CRLF ++ serialize part ++ CRLF)
              <$> parts form)
    ++ blit "--" ++ boundary form ++ blit "--"
  /\ (built form ->
      (forall part, part ∈ parts form ->
                    ~ occurs (blit "--" ++ boundary form) (serialize part)) ->
      bytes_split (blit "--" ++ boundary form) (http_body form)
      = Return ([] :: (framed <$> parts form) ++ [blit "--"])).
Proof.
  split; [apply http_body_concat|].
  intros Hbuilt Hparts. apply built_boundary in Hbuilt.
  destruct boundary_safe as [Hsafe Hne].
  rewrite http_body_concat. rewrite Hbuilt in *.
  set (D := blit "--" ++ _boundary) in *.
  assert (Forall (fun x => line_safe x = true) D) as HD
    by (apply Forall_app; split; [by repeat constructor|exact Hsafe]).
  assert (2 < length D)%nat as Hlen.
  { unfold D. rewrite length_app. change (length (blit "--")) with 2%nat.
    destruct _boundary; [done|]. cbn. lia. }
  unfold bytes_split. rewrite bool_decide_eq_false_2 by (intros HD0; by rewrite HD0 in Hlen).
  f_equal.
  change (blit "--" ++ _boundary ++ blit "--") with (D ++ blit "--").
  change (fun part => blit "--" ++ _boundary ++ CRLF ++ serialize part ++ CRLF)
    with (fun part => D ++ (CRLF ++ serialize part ++ CRLF)).
  rewrite app_assoc, rotate_boundary, <- app_assoc.
  rewrite split_from_match by (intros HD0; by rewrite HD0 in Hlen).
  f_equal. by apply split_parts.
Qed.

(** *** The header lines of a part *)

Lemma append_header_last name value hs h b :
  append_header name value {| headers := hs ++ [h]; body := b |}
  = (f <-- _encode_field name value ;;
     Return {| headers := hs ++ [h ++ blit "; " ++ f]; body := b |}).
Proof.
  unfold append_header. cbn [headers body]. rewrite last_snoc.
  destruct (_encode_field name value) as [f|e]; [|done]. cbn [obind].
  do 2 f_equal. rewrite length_app. cbn [length].
  replace (pred (length hs + 1)) with (length hs + 0)%nat by lia.
  by rewrite insert_app_r.
Qed.

Lemma append_header_single name value h b :
  append_header name value {| headers := [h]; body := b |}
  = (f <-- _encode_field name value ;;
     Return {| headers := [h ++ blit "; " ++ f]; body := b |}).
Proof. apply (append_header_last name value [] h b). Qed.

Lemma FormDataPart_init_inv name data part :
  _FormDataPart_init name data = Return part ->
  exists f, _encode_field (slit "name") name = Return f
    /\ headers part = [blit "Content-Disposition: form-data" ++ blit "; " ++ f]
    /\ match data with
       | Some d => exists payload, as_bytes encode_latin1 d = Return payload
                                   /\ body part = Some payload
       | None => body part = None
       end.
Proof.
  unfold _FormDataPart_init, add_header. cbn [headers body app].
  rewrite append_header_single.
  destruct (_encode_field (slit "name") name) as [f|e]; [|done]. cbn [obind app].
  intros H. exists f. split; [done|].
  destruct data as [d|].
  - unfold add_body in H. destruct (as_bytes encode_latin1 d) as [payload|]; [|done].
    injection H as <-. split; [done|]. by exists payload.
  - by injection H as <-.
Qed.


Lemma FormDataPart_init_file :
  _FormDataPart_init (slit "file") None
  = Return {| headers := [blit "Content-Disposition: form-data" ++ blit "; "
                            ++ blit "name=" ++ [DQUOTE] ++ blit "file" ++ [DQUOTE]];
              body := None |}.
Proof. reflexivity. Qed.

Lemma add_field_inv name value form form' :
  add_field name value form = Return form' ->
  exists part f,
    form' = {| parts := parts form ++ [part]; boundary := boundary form |}
    /\ _encode_field (slit "name") name = Return f
    /\ headers part = [blit "Content-Disposition: form-data" ++ blit "; " ++ f]
    /\ match value with
       | Some d => exists payload, as_bytes encode_latin1 d = Return payload
                                   /\ body part = Some payload
       | None => body part = None
       end.
Proof.
  unfold add_field. destruct (_FormDataPart_init name value) as [part|] eqn:Hinit; [|done].
  intros [= <-]. apply FormDataPart_init_inv in Hinit as (f & ? & ? & ?).
  by exists part, f.
Qed.

Lemma add_file_inv filename data form form' :
  add_file filename data form = Return form' ->
  exists line payload,
    form' = {| parts := parts form
                 ++ [{| headers := line :: match data with
                                           | Some _ => [blit "Content-Type: application/octet-stream"]
                                           | None => []
                                           end;
                        body := payload |}];
               boundary := boundary form |}
    /\ match filename with
       | Some fn => exists g, _encode_field (slit "filename") fn = Return g
                    /\ line = blit "Content-Disposition: form-data" ++ blit "; "
                                ++ blit "name=" ++ [DQUOTE] ++ blit "file" ++ [DQUOTE]
                                ++ blit "; " ++ g
       | None => line = blit "Content-Disposition: form-data" ++ blit "; "
                          ++ blit "name=" ++ [DQUOTE] ++ blit "file" ++ [DQUOTE]
       end
    /\ match data with
       | Some d => exists p, as_bytes encode_latin1 d = Return p /\ payload = Some p
       | None => payload = None
       end.
Proof.
  unfold add_file. rewrite FormDataPart_init_file. cbn [obind].
  set (line0 := blit "Content-Disposition: form-data" ++ blit "; "
                ++ blit "name=" ++ [DQUOTE] ++ blit "file" ++ [DQUOTE]).
  assert (forall line,
    (part <-- match data with
              | Some d => add_body d (add_header (blit "Content-Type: application/octet-stream")
                                       {| headers := [line]; body := None |})
              | None => Return {| headers := [line]; body := None |}
              end ;;
     Return {| parts := parts form ++ [part]; boundary := boundary form |}) = Return form' ->
    exists payload,
      form' = {| parts := parts form
                 ++ [{| headers := line :: match data with
                                           | Some _ => [blit "Content-Type: application/octet-stream"]
                                           | None => []
                                           end;
                        body := payload |}];
               boundary := boundary form |}
      /\ match data with
         | Some d => exists p, as_bytes encode_latin1 d = Return p /\ payload = Some p
         | None => payload = None
         end) as Hdata.
  { intros line. destruct data as [d|]; cbn [obind].
    - unfold add_body, add_header. cbn [headers body app].
      destruct (as_bytes encode_latin1 d) as [p|]; [|done]. cbn [obind].
      intros [= <-]. exists (Some p). split; [done|]. by exists p.
    - intros [= <-]. by exists None. }
  destruct filename as [fn|].
  - rewrite append_header_single.
    destruct (_encode_field (slit "filename") fn) as [g|]; [|done]. cbn [obind app].
    intros (payload & -> & Hp)%Hdata.
    eexists _, payload. split; [reflexivity|]. split; [|done]. exists g. split; [done|].
    unfold line0. by rewrite <- !app_assoc.
  - cbn [obind]. intros (payload & -> & Hp)%Hdata. by exists line0, payload.
Qed.

Lemma content_disposition_line rest :
  is_content_disposition (blit "Content-Disposition: form-data" ++ rest)
  /\ ~ is_content_type (blit "Content-Disposition: form-data" ++ rest).
Proof.
  split.
  - by exists (blit "form-data" ++ rest).
  - intros [k Hk]. vm_compute in Hk. discriminate Hk.
Qed.

(** C5 (amended): the first header line of every part that [add_field] or
    [add_file] makes is a Content-Disposition line.  A field part has that
    line only, so no Content-Type header.  A file part made with a body has
    exactly one more line, 'Content-Type: application/octet-stream'; a file
    part made without a body has the Content-Disposition line only, and
    [add_file()] without arguments makes such a part. *)
Theorem part_header_lines form :
  (forall name value form', add_field name value form = Return form' ->
     exists part line,
       parts form' = parts form ++ [part] /\ headers part = [line]
       /\ is_content_disposition line /\ ~ is_content_type line)
  /\ (forall filename data form', add_file filename data form = Return form' ->
       exists part line,
         parts form' = parts form ++ [part]
         /\ is_content_disposition line /\ ~ is_content_type line
         /\ headers part
            = line :: match data with
                      | Some _ => [blit "Content-Type: application/octet-stream"]
                      | None => []
                      end)
  /\ (exists part line,
        add_file None None form
        = Return {| parts := parts form ++ [part]; boundary := boundary form |}
        /\ headers part = [line] /\ is_content_disposition line).
Proof.
  split; [|split].
  - intros name value form' (part & f & -> & _ & Hh & _)%add_field_inv.
    eexists part, _. split; [done|]. split; [done|]. apply content_disposition_line.
  - intros filename data form' (line & payload & -> & Hline & _)%add_file_inv.
    eexists _, line. split; [done|]. cbn [headers].
    assert (exists rest, line = blit "Content-Disposition: form-data" ++ rest) as [rest ->].
    { destruct filename; [destruct Hline as (g & _ & ->)|]; eauto. }
    split; [apply content_disposition_line|]. split; [apply content_disposition_line|done].
  - eexists _, _. split; [reflexivity|]. split; [reflexivity|].
    apply content_disposition_line.
Qed.


(** *** What [submit] sends for a list of links *)

Lemma bind_assoc {A B C} (m : M A) (f : A -> M B) (g : B -> M C) self :
  (y <~ (x <~ m ;; f x) ;; g y) self = (x <~ m ;; y <~ f x ;; g y) self.
Proof.
  unfold bind. destruct (m self) as [[[a|e] s1] ev1]; [|done].
  destruct (f a s1) as [[[b|e] s2] ev2]; [|done].
  destruct (g b s2) as [[o s3] ev3]. by rewrite app_assoc.
Qed.






Lemma built_add_field_opt k v form form' :
  built form -> add_field_opt k v form = Return form' -> built form'.
Proof.
  intros Hb. destruct v as [x|]; cbn [add_field_opt].
  - by apply built_add_field.
  - by intros [= <-].
Qed.




Ltac built_tac :=
  repeat first
    [ apply built_init
    | eapply built_add_file; [|eassumption]
    | eapply built_add_field; [|eassumption]
    | eapply built_add_field_opt; [|eassumption] ].



Lemma encode_latin1_ok s : latin1 s -> succeeds (encode_latin1 s).
Proof.
  unfold encode_latin1. induction 1 as [|c s Hc _ [p IH]]; [by exists []|].
  cbn [omap]. destruct (Byte.of_N c) as [x|] eqn:Hx.
  - rewrite IH. by eexists.
  - apply Byte.of_N_None_iff in Hx. lia.
Qed.

Lemma add_field_ok name v form :
  succeeds (_encode_field (slit "name") name) -> latin1 v ->
  succeeds (add_field name (Some (DStr v)) form).
Proof.
  intros [f Hf] [p Hp]%encode_latin1_ok.
  unfold add_field, _FormDataPart_init, add_header. cbn [headers body app].
  rewrite append_header_single, Hf. cbn [obind]. unfold add_body. cbn [as_bytes].
  rewrite Hp. by eexists.
Qed.

Lemma add_field_opt_ok k v form :
  succeeds (_encode_field (slit "name") (slit k)) ->
  (forall x, v = Some x -> latin1 x) ->
  succeeds (add_field_opt k v form).
Proof.
  intros Hk Hv. destruct v as [x|]; cbn [add_field_opt]; [|by eexists].
  apply add_field_ok; auto.
Qed.


Lemma decode_ascii_ok l :
  Forall (fun x => line_safe x = true) l -> succeeds (decode_ascii l).
Proof.
  unfold decode_ascii. induction 1 as [|x l Hx _ [s IH]]; [by exists []|].
  cbn [omap]. unfold line_safe in Hx. apply andb_true_iff in Hx as [_ ->].
  rewrite IH. by eexists.
Qed.

Lemma http_headers_ok form : built form -> succeeds (http_headers form).
Proof.
  intros Hb%built_boundary. unfold http_headers. rewrite Hb.
  destruct (decode_ascii_ok _boundary) as [s Hs]; [apply boundary_safe|].
  rewrite Hs. by eexists.
Qed.

Lemma latin1_slit s : latin1 (slit s).
Proof.
  unfold latin1, slit. apply Forall_fmap, Forall_forall. intros x _.
  apply Byte.to_N_bounded.
Qed.






(** *** Responses that are refused, and bodies that do not decode *)

(** Evaluate the closed comparisons of content types. *)
Ltac eval_bd :=
  repeat match goal with
         | |- context [bool_decide ?P] =>
           let b := eval vm_compute in (bool_decide P) in
           change (bool_decide P) with b
         end;
  cbv beta iota; cbn [orb].



Lemma decode_utf8_raises l e : decode_utf8 l = Raise e -> e = UnicodeDecodeError.
Proof.
  assert (forall n l e, (length l <= n)%nat -> decode_utf8 l = Raise e ->
                        e = UnicodeDecodeError) as H.
  { clear l e. induction n as [|n IH]; intros l e Hn.
    - destruct l; [done|cbn in Hn; lia].
    - destruct l as [|a t]; [done|]. cbn [decode_utf8]. cbn in Hn.
      intros H.
      repeat match type of H with
             | context [if ?b then _ else _] => destruct b
             | context [match ?l with [] => _ | _ :: _ => _ end] =>
               destruct l; cbn in Hn
             | context [obind (decode_utf8 ?r) _] =>
               let E := fresh "E" in
               destruct (decode_utf8 r) eqn:E; cbn [obind] in H;
               [|apply IH in E; [|lia]]
             end; congruence. }
  by apply (H (length l) l).
Qed.

(** X2: a body that is not valid UTF-8, under one of the five textual
    content types, makes [__set_response], and with it the operation, raise
    [UnicodeDecodeError]; the response-type tag is already set by then, and
    nothing else is. *)
Theorem undecodable_body_raises self response message tag e :
  _message self = Some message ->
  (get_content_type message, tag) ∈ text_tags ->
  decode_utf8 (read response) = Raise e ->
  __set_response response self
  = (Raise UnicodeDecodeError, set_response_type (Some (slit tag)) self, [])
  /\ check_response (Some response) self
     = (Raise UnicodeDecodeError, set_response_type (Some (slit tag)) self, []).
Proof.
  intros Hm Hin Hdec. pose proof (decode_utf8_raises _ _ Hdec) as ->.
  assert (__set_response response self
          = (Raise UnicodeDecodeError, set_response_type (Some (slit tag)) self, []))
    as Hr.
  { unfold __set_response. rewrite bind_get, Hm. unfold text_tags in Hin.
    repeat (apply elem_of_cons in Hin as [[= -> ->]|Hin];
            [eval_bd; munfold; rewrite bind_modify, Hdec; reflexivity|]).
    by apply elem_of_nil in Hin. }
  split; [exact Hr|]. unfold check_response, bind. rewrite Hr. reflexivity.
Qed.

(** *** XML responses *)

(** X3: the loop of [__set_xml_response] that drops blank lines removes a
    prefix of carriage returns and line feeds, all of it, and nothing
    else: what is parsed starts with another byte or is empty. *)
Theorem strip_leading_newlines_prefix l :
  exists pre,
    l = pre ++ strip_leading_newlines l
    /\ Forall (fun x => x = CR \/ x = LF) pre
    /\ forall x rest, strip_leading_newlines l = x :: rest -> x <> CR /\ x <> LF.
Proof.
  induction l as [|x l (pre & Hl & Hpre & Hhead)].
  - exists []. repeat split; [constructor|done|done].
  - cbn [strip_leading_newlines].
    destruct (bool_decide (x = CR)) eqn:Hcr; [|destruct (bool_decide (x = LF)) eqn:Hlf];
      cbn [orb].
    + apply bool_decide_eq_true_1 in Hcr.
      exists (x :: pre). split; [cbn; by rewrite <- Hl|]. split; [|done].
      constructor; auto.
    + apply bool_decide_eq_true_1 in Hlf.
      exists (x :: pre). split; [cbn; by rewrite <- Hl|]. split; [|done].
      constructor; auto.
    + apply bool_decide_eq_false_1 in Hcr, Hlf.
      exists []. split; [done|]. split; [constructor|].
      by intros ? ? [= <- _].
Qed.

Lemma strip_newlines_only l :
  Forall (fun x => x = CR \/ x = LF) l -> strip_leading_newlines l = [].
Proof.
  induction 1 as [|x l [-> | ->] _ IH]; [done|..]; cbn [strip_leading_newlines].
  - by rewrite bool_decide_eq_true_2.
  - rewrite (bool_decide_eq_true_2 (LF = LF)) by done. by rewrite orb_true_r.
Qed.

Lemma decode_utf8_newlines l :
  Forall (fun x => x = CR \/ x = LF) l -> decode_utf8 l = Return (Byte.to_N <$> l).
Proof.
  induction 1 as [|x l Hx _ IH]; [done|].
  cbn [decode_utf8]. rewrite IH.
  by destruct Hx as [-> | ->].
Qed.

Lemma set_response_xml self response message :
  _message self = Some message ->
  get_content_type message = slit "application/xml"
  \/ get_content_type message = slit "text/xml" ->
  __set_response response self = __set_xml_response (read response) self.
Proof.
  intros Hm Hct. unfold __set_response. rewrite bind_get, Hm.
  destruct Hct as [-> | ->]; by eval_bd.
Qed.

Lemma xml_response_with_content self body text :
  decode_utf8 body = Return text -> strip_leading_newlines body <> [] ->
  __set_xml_response body self
  = match etree_fromstring (strip_leading_newlines body) with
    | ParseError msg =>
      (Return false,
       set_msg (Some (slit "ElementTree.fromstring ParseError: " ++ msg))
         (set_response_body (Some text) (set_response_type (Some (slit "xml")) self)),
       [])
    | Parsed element =>
      (Return true,
       set_xml_element_root (Some element)
         (set_response_body (Some text) (set_response_type (Some (slit "xml")) self)),
       [])
    | FromstringRaised e =>
      (Raise (OtherException e),
       set_response_body (Some text) (set_response_type (Some (slit "xml")) self),
       [])
    end.
Proof.
  intros Hdec Hstrip. unfold __set_xml_response.
  rewrite bind_modify, Hdec, bind_lift_return.
  assert (body <> []) as Hbody by (by intros ->).
  assert (length text <> 0%nat) as Hlen.
  { intros Hlen. apply Hbody. by eapply decode_len0. }
  apply Nat.eqb_neq in Hlen. rewrite Hlen. rewrite bind_modify.
  assert (length (strip_leading_newlines body) <> 0%nat) as Hlen'
    by (by destruct (strip_leading_newlines body)).
  apply Nat.eqb_neq in Hlen'. rewrite Hlen'.
  destruct (etree_fromstring _); by rewrite ?bind_modify.
Qed.

(** X4: an XML response that the parser refuses makes the operation raise
    [PanWFapiError] with 'ElementTree.fromstring ParseError: ' and the
    message of the parser, which is also left in [_msg]; the decoded body
    is kept in [response_body] all the same, and no root element is set. *)
Theorem xml_parse_error self response message text msg :
  _message self = Some message ->
  get_content_type message = slit "application/xml"
  \/ get_content_type message = slit "text/xml" ->
  decode_utf8 (read response) = Return text ->
  strip_leading_newlines (read response) <> [] ->
  etree_fromstring (strip_leading_newlines (read response)) = ParseError msg ->
  let r := check_response (Some response) self in
  let error := slit "ElementTree.fromstring ParseError: " ++ msg in
  outcome r = Raise (PanWFapiError (Some error))
  /\ _msg (final r) = Some error
  /\ response_type (final r) = Some (slit "xml")
  /\ response_body (final r) = Some text
  /\ xml_element_root (final r) = xml_element_root self
  /\ activity r = [].
Proof.
  intros Hm Hct Hdec Hstrip Hparse. cbn zeta.
  unfold check_response, bind.
  rewrite (set_response_xml _ _ _ Hm Hct), (xml_response_with_content _ _ _ Hdec Hstrip).
  rewrite Hparse. repeat split.
Qed.

(** X5: an XML response that parses is accepted: the root element is
    that of the body without its leading blank lines, [response_body] is
    the whole decoded body, blank lines included, and [_msg] is as it
    was. *)
Theorem xml_parse_success self response message text element :
  _message self = Some message ->
  get_content_type message = slit "application/xml"
  \/ get_content_type message = slit "text/xml" ->
  decode_utf8 (read response) = Return text ->
  strip_leading_newlines (read response) <> [] ->
  etree_fromstring (strip_leading_newlines (read response)) = Parsed element ->
  let r := check_response (Some response) self in
  outcome r = Return tt
  /\ xml_element_root (final r) = Some element
  /\ response_body (final r) = Some text
  /\ response_type (final r) = Some (slit "xml")
  /\ _msg (final r) = _msg self
  /\ activity r = [].
Proof.
  intros Hm Hct Hdec Hstrip Hparse. cbn zeta.
  unfold check_response, bind.
  rewrite (set_response_xml _ _ _ Hm Hct), (xml_response_with_content _ _ _ Hdec Hstrip).
  rewrite Hparse. repeat split.
Qed.

(** X6: an XML response that holds line breaks only is accepted without
    the parser being asked: the body is kept as text and no root element
    is set. *)
Theorem xml_blank_lines_only self response message :
  _message self = Some message ->
  get_content_type message = slit "application/xml"
  \/ get_content_type message = slit "text/xml" ->
  read response <> [] ->
  Forall (fun x => x = CR \/ x = LF) (read response) ->
  __set_response response self
  = (Return true,
     set_response_body (Some (Byte.to_N <$> read response))
       (set_response_type (Some (slit "xml")) self),
     []).
Proof.
  intros Hm Hct Hne Hnl.
  rewrite (set_response_xml _ _ _ Hm Hct). unfold __set_xml_response.
  rewrite bind_modify, (decode_utf8_newlines _ Hnl), bind_lift_return.
  rewrite length_fmap, (strip_newlines_only _ Hnl).
  destruct (read response) as [|x l]; [done|]. cbn [length Nat.eqb].
  by rewrite bind_modify.
Qed.

(** *** Text responses: decoding what was encoded *)

Ltac Zify.zify_post_hook ::= Z.to_euclidean_division_equations.

Lemma to_N_byte_of n : n < 256 -> Byte.to_N (byte_of n) = n.
Proof.
  intros Hn. unfold byte_of. rewrite N.mod_small by done.
  destruct (Byte.of_N n) as [x|] eqn:Hx.
  - cbn. by apply Byte.to_of_N.
  - apply Byte.of_N_None_iff in Hx. lia.
Qed.

Lemma in_range_byte_of lo hi n :
  n < 256 -> in_range lo hi (byte_of n) = bool_decide (lo <= n /\ n <= hi).
Proof.
  intros Hn. unfold in_range. rewrite to_N_byte_of by done.
  case_bool_decide as H.
  - destruct H. apply andb_true_iff. split; by apply N.leb_le.
  - apply andb_false_iff. rewrite !N.leb_gt. lia.
Qed.

Lemma is_cont_byte_of n :
  n < 64 -> is_cont (byte_of (0x80 + n)) = true /\ low6 (byte_of (0x80 + n)) = n.
Proof.
  intros Hn. unfold is_cont, low6. rewrite to_N_byte_of by lia. split.
  - apply andb_true_iff. split; apply N.leb_le; lia.
  - lia.
Qed.

Lemma decode_utf8_encoded_cp c encoded rest :
  utf8_encode_cp c = Return encoded ->
  decode_utf8 (encoded ++ rest) = (s <-- decode_utf8 rest ;; Return (c :: s)).
Proof.
  unfold utf8_encode_cp.
  destruct (c <? 128) eqn:H1; [|destruct (c <? 2048) eqn:H2;
    [|destruct (c <? 65536) eqn:H3; [|destruct (c <? 1114112) eqn:H4; [|done]]]].
  - intros [= <-]. apply N.ltb_lt in H1. cbn [app decode_utf8].
    rewrite to_N_byte_of by lia. by rewrite (proj2 (N.ltb_lt _ _) H1).
  - intros [= <-]. apply N.ltb_ge in H1. apply N.ltb_lt in H2.
    destruct (is_cont_byte_of (c mod 64) ltac:(lia)) as [Hc Hl].
    cbn [app decode_utf8]. rewrite to_N_byte_of by lia.
    rewrite (proj2 (N.ltb_ge _ _)) by lia.
    rewrite in_range_byte_of by lia. rewrite bool_decide_eq_true_2 by lia.
    rewrite Hc, Hl.
    replace ((192 + c / 64 - 192) * 64 + c mod 64) with c by lia. done.
  - destruct ((55296 <=? c) && (c <=? 57343)) eqn:Hs; [done|].
    intros [= <-]. apply N.ltb_ge in H1, H2. apply N.ltb_lt in H3.
    apply andb_false_iff in Hs. rewrite !N.leb_gt in Hs.
    destruct (is_cont_byte_of ((c / 64) mod 64) ltac:(lia)) as [Hc1 Hl1].
    destruct (is_cont_byte_of (c mod 64) ltac:(lia)) as [Hc2 Hl2].
    cbn [app decode_utf8]. rewrite to_N_byte_of by lia.
    rewrite (proj2 (N.ltb_ge _ _)) by lia.
    rewrite !in_range_byte_of by lia.
    rewrite bool_decide_eq_false_2 by lia. rewrite bool_decide_eq_true_2 by lia.
    repeat match goal with
           | |- context [?a =? ?b] => destruct (N.eqb_spec a b)
           end; rewrite ?bool_decide_eq_true_2 by lia.
    all: rewrite ?Hc1.
    all: rewrite Hc2, Hl1, Hl2; cbn [andb].
    all: replace ((224 + c / 4096 - 224) * 4096 + (c / 64) mod 64 * 64 + c mod 64)
           with c by lia.
    all: done.
  - intros [= <-]. apply N.ltb_ge in H1, H2, H3. apply N.ltb_lt in H4.
    destruct (is_cont_byte_of ((c / 4096) mod 64) ltac:(lia)) as [Hc1 Hl1].
    destruct (is_cont_byte_of ((c / 64) mod 64) ltac:(lia)) as [Hc2 Hl2].
    destruct (is_cont_byte_of (c mod 64) ltac:(lia)) as [Hc3 Hl3].
    cbn [app decode_utf8]. rewrite to_N_byte_of by lia.
    rewrite (proj2 (N.ltb_ge _ _)) by lia.
    rewrite !in_range_byte_of by lia.
    rewrite !bool_decide_eq_false_2 by lia. rewrite bool_decide_eq_true_2 by lia.
    repeat match goal with
           | |- context [?a =? ?b] => destruct (N.eqb_spec a b)
           end; rewrite ?bool_decide_eq_true_2 by lia.
    all: rewrite ?Hc1.
    all: rewrite Hc2, Hc3, Hl1, Hl2, Hl3; cbn [andb].
    all: replace ((240 + c / 262144 - 240) * 262144 + (c / 4096) mod 64 * 4096
                  + (c / 64) mod 64 * 64 + c mod 64) with c by lia.
    all: done.
Qed.

Lemma decode_utf8_encode_utf8 s encoded :
  encode_utf8 s = Return encoded -> decode_utf8 encoded = Return s.
Proof.
  unfold encode_utf8. revert encoded.
  induction s as [|c s IH]; intros encoded; cbn [omap obind].
  - by intros [= <-].
  - destruct (utf8_encode_cp c) as [bs|] eqn:Hc; [|done]. cbn [obind].
    destruct (omap utf8_encode_cp s) as [l|]; [|done]. cbn [obind concat].
    intros [= <-]. rewrite (decode_utf8_encoded_cp _ _ _ Hc).
    by rewrite (IH (concat l) eq_refl).
Qed.

Lemma set_response_plain_text self response message tag :
  _message self = Some message ->
  (get_content_type message, tag) ∈ plain_text_tags ->
  __set_response response self = set_text_response tag (read response) self.
Proof.
  intros Hm Hin. unfold __set_response. rewrite bind_get, Hm. unfold plain_text_tags in Hin.
  repeat (apply elem_of_cons in Hin as [[= -> ->]|Hin]; [by eval_bd|]).
  by apply elem_of_nil in Hin.
Qed.

Lemma set_text_response_encoded tag text body self :
  encode_utf8 text = Return body -> text <> [] ->
  set_text_response tag body self
  = (Return true,
     set_response_body (Some text) (set_response_type (Some (slit tag)) self), []).
Proof.
  intros Henc Hne. unfold set_text_response.
  rewrite bind_modify, (decode_utf8_encode_utf8 _ _ Henc), bind_lift_return.
  destruct text; [done|]. cbn [length Nat.eqb]. by rewrite bind_modify.
Qed.

(** X7: a JSON, HTML or plain-text body that is the UTF-8 encoding of a
    text that is not empty is stored as that text, under the tag of its
    type; nothing else changes. *)
Theorem text_response_round_trip self response message tag text :
  _message self = Some message ->
  (get_content_type message, tag) ∈ plain_text_tags ->
  encode_utf8 text = Return (read response) -> text <> [] ->
  __set_response response self
  = (Return true,
     set_response_body (Some text) (set_response_type (Some (slit tag)) self), []).
Proof.
  intros Hm Hin Henc Hne.
  rewrite (set_response_plain_text _ _ _ _ Hm Hin).
  by apply set_text_response_encoded.
Qed.

(** *** Downloads *)


(** *** The exchange with the service *)

Lemma bind_emit_eq {A} e (m : M A) self o s ev :
  m self = (o, s, ev) -> (emit e ;;; m) self = (o, s, e :: ev).
Proof. intros H. by rewrite bind_emit, H. Qed.

Lemma api_request_failure request_uri data hdrs self payload :
  as_bytes encode_utf8 data = Return payload ->
  __api_request request_uri data hdrs self
  = match _urlopen (kwargs_of self request_uri payload hdrs) with
    | CertificateError e =>
      (Return None, set_msg (Some (slit "ssl.CertificateError: " ++ e)) self,
       [EvUrlopen (kwargs_of self request_uri payload hdrs)])
    | URLError e =>
      (Return None, set_msg (Some e) self,
       [EvUrlopen (kwargs_of self request_uri payload hdrs)])
    | OpenerRaised e =>
      (Raise (OtherException e), self,
       [EvUrlopen (kwargs_of self request_uri payload hdrs)])
    | Response r => __api_request request_uri data hdrs self
    end.
Proof.
  intros Henc. destruct (_urlopen _) as [e|e|r|e] eqn:Hopen; [| |done|].
  - unfold __api_request. rewrite bind_get, Henc, bind_lift_return.
    apply bind_emit_eq. fold (kwargs_of self request_uri payload hdrs).
    rewrite Hopen. by rewrite bind_modify.
  - unfold __api_request. rewrite bind_get, Henc, bind_lift_return.
    apply bind_emit_eq. fold (kwargs_of self request_uri payload hdrs).
    rewrite Hopen. by rewrite bind_modify.
  - unfold __api_request. rewrite bind_get, Henc, bind_lift_return.
    apply bind_emit_eq. fold (kwargs_of self request_uri payload hdrs).
    by rewrite Hopen.
Qed.

(** X9: what an exception of [_urlopen] becomes depends on its class.
    [ssl.CertificateError] itself makes the operation raise
    [PanWFapiError] with 'ssl.CertificateError: ' and the text of the
    exception; [URLError] or [IOError] makes it raise [PanWFapiError] with
    the text alone; in both cases the text is left in [_msg] and no status
    is stored.  An exception of any other class is not caught: the
    operation raises it as it is and [_msg] is untouched.  The one request
    is all that was attempted. *)
Theorem transport_failure request_uri data hdrs self payload :
  as_bytes encode_utf8 data = Return payload ->
  forall e,
    (_urlopen (kwargs_of self request_uri payload hdrs) = CertificateError e ->
     exchange request_uri data hdrs self
     = (Raise (PanWFapiError (Some (slit "ssl.CertificateError: " ++ e))),
        set_msg (Some (slit "ssl.CertificateError: " ++ e)) self,
        [EvUrlopen (kwargs_of self request_uri payload hdrs)]))
    /\ (_urlopen (kwargs_of self request_uri payload hdrs) = URLError e ->
        exchange request_uri data hdrs self
        = (Raise (PanWFapiError (Some e)), set_msg (Some e) self,
           [EvUrlopen (kwargs_of self request_uri payload hdrs)]))
    /\ (_urlopen (kwargs_of self request_uri payload hdrs) = OpenerRaised e ->
        exchange request_uri data hdrs self
        = (Raise (OtherException e), self,
           [EvUrlopen (kwargs_of self request_uri payload hdrs)])).
Proof.
  intros Henc e.
  repeat split; intros Hopen; unfold exchange, bind;
    rewrite (api_request_failure _ _ _ _ _ Henc), Hopen; reflexivity.
Qed.

Lemma api_request_response request_uri data hdrs self payload r message :
  as_bytes encode_utf8 data = Return payload ->
  _urlopen (kwargs_of self request_uri payload hdrs) = Response r ->
  reason r <> [] -> info r = inr message ->
  __api_request request_uri data hdrs self
  = if is_2xx (getcode r) then
      (Return (Some r), received self r message,
       [EvUrlopen (kwargs_of self request_uri payload hdrs)])
    else
      let classified :=
        __set_response r (set_msg (Some (http_error_msg r)) (received self r message)) in
      (match outcome classified with
       | Return _ => Return None
       | Raise e => Raise e
       end, final classified,
       [EvUrlopen (kwargs_of self request_uri payload hdrs)]).
Proof.
  intros Henc Hopen Hreason Hinfo.
  destruct (set_response_frame r (set_msg (Some (http_error_msg r))
                                          (received self r message))) as [Hact _].
  unfold __api_request. rewrite bind_get, Henc, bind_lift_return.
  destruct (is_2xx (getcode r)) eqn:H2xx; cbn zeta; apply bind_emit_eq;
    fold (kwargs_of self request_uri payload hdrs);
    rewrite Hopen, !bind_modify; rewrite bool_decide_eq_false_2 by done;
    rewrite bind_ret, Hinfo, bind_modify, bind_get;
    fold (received self r message); fold (is_2xx (getcode r)); rewrite H2xx;
    cbn [negb]; [done|].
  rewrite bind_modify.
  change (slit "HTTP Error " ++ slit (pretty (getcode r)) ++ slit ": "
          ++ fmt_opt (http_reason (received self r message)))
    with (http_error_msg r).
  unfold bind.
  destruct (__set_response r _) as [[[b|e] s] ev]; cbn in Hact; by subst.
Qed.

Lemma is_2xx_false code : is_2xx code = false -> ~ (200 <= code < 300)%Z.
Proof.
  unfold is_2xx. intros H [? ?].
  destruct (Z.leb_spec 200 code); [|lia].
  destruct (Z.ltb_spec code 300); [done|lia].
Qed.

(** X10: what a response with a status outside 200..299 becomes depends on
    the scheme of the request.  Over https the response reaches the
    client: the operation raises [PanWFapiError] with 'HTTP Error', the
    status and the reason, and the body of the response is classified all
    the same, so that a JSON, HTML or plain-text body is there to be read
    in [response_body] after the error.  Over http the opener turns the
    response into an exception first: when that is [HTTPError], a
    [URLError], the operation raises [PanWFapiError] with its text, and
    stores nothing of the response, neither status nor reason nor body. *)
Theorem service_error_keeps_text_body request_uri data hdrs self payload r :
  as_bytes encode_utf8 data = Return payload ->
  handlers_open (kwargs_of self request_uri payload hdrs) = Response r ->
  is_2xx (getcode r) = false ->
  (request_type (uri self ++ request_uri) = Some (slit "https") ->
   forall message tag text,
     reason r <> [] -> info r = inr message ->
     (get_content_type message, tag) ∈ plain_text_tags ->
     encode_utf8 text = Return (read r) -> text <> [] ->
     exchange request_uri data hdrs self
     = (Raise (PanWFapiError (Some (http_error_msg r))),
        set_response_body (Some text)
          (set_response_type (Some (slit tag))
             (set_msg (Some (http_error_msg r)) (received self r message))),
        [EvUrlopen (kwargs_of self request_uri payload hdrs)]))
  /\ (request_type (uri self ++ request_uri) = Some (slit "http") ->
      forall e,
        http_error (kwargs_of self request_uri payload hdrs) r = URLError e ->
        exchange request_uri data hdrs self
        = (Raise (PanWFapiError (Some e)), set_msg (Some e) self,
           [EvUrlopen (kwargs_of self request_uri payload hdrs)])).
Proof.
  intros Henc Hfetch H2xx. split.
  - intros Hhttps message tag text Hreason Hinfo Htag Htext Hne.
    pose proof (urlopen_response _ r Hfetch (or_introl Hhttps)) as Hopen.
    unfold exchange, bind.
    rewrite (api_request_response _ _ _ _ _ _ _ Henc Hopen Hreason Hinfo), H2xx.
    cbn zeta.
    rewrite (set_response_plain_text
               (set_msg (Some (http_error_msg r)) (received self r message))
               r message tag eq_refl Htag).
    rewrite (set_text_response_encoded _ _ _ _ Htext Hne).
    reflexivity.
  - intros Hhttp e He.
    pose proof (urlopen_http_error _ r Hfetch Hhttp (is_2xx_false _ H2xx)) as Hopen.
    rewrite He in Hopen. unfold exchange, bind.
    rewrite (api_request_failure _ _ _ _ _ Henc), Hopen. reflexivity.
Qed.


(** X12: a 2xx response with a JSON, HTML or plain-text body ends the
    operation normally, with the status, the reason and the headers stored,
    the text in [response_body], and the one request as all that was
    attempted. *)
Theorem success_keeps_text_body request_uri data hdrs self payload r message tag text :
  as_bytes encode_utf8 data = Return payload ->
  _urlopen (kwargs_of self request_uri payload hdrs) = Response r ->
  reason r <> [] -> info r = inr message -> is_2xx (getcode r) = true ->
  (get_content_type message, tag) ∈ plain_text_tags ->
  encode_utf8 text = Return (read r) -> text <> [] ->
  exchange request_uri data hdrs self
  = (Return tt,
     set_response_body (Some text)
       (set_response_type (Some (slit tag)) (received self r message)),
     [EvUrlopen (kwargs_of self request_uri payload hdrs)]).
Proof.
  intros Henc Hopen Hreason Hinfo H2xx Htag Htext Hne.
  unfold exchange, bind.
  rewrite (api_request_response _ _ _ _ _ _ _ Henc Hopen Hreason Hinfo), H2xx.
  unfold check_response, bind.
  rewrite (set_response_plain_text (received self r message)
             r message tag eq_refl Htag).
  rewrite (set_text_response_encoded _ _ _ _ Htext Hne).
  reflexivity.
Qed.

Lemma get_content_type_not_empty message : get_content_type message <> [].
Proof.
  unfold get_content_type. destruct (content_type message) as [ctype|]; [|done].
  destruct (negb _) eqn:Hcount; [done|].
  apply negb_false_iff, Nat.eqb_eq in Hcount. by intros ->.
Qed.

(** X29: [get_content_type()] always names a type, so [__set_response]
    never takes its branch for a response without content type; a response
    that has no Content-Type header is classified as text/plain: a body
    that is the UTF-8 encoding of a text that is not empty is stored as
    that text under the tag 'txt', and [_msg] stays as it was. *)
Theorem response_without_content_type self response message text :
  _message self = Some message -> content_type message = None ->
  encode_utf8 text = Return (read response) -> text <> [] ->
  (forall m, get_content_type m <> [])
  /\ __set_response response self
     = (Return true,
        set_response_body (Some text) (set_response_type (Some (slit "txt")) self),
        []).
Proof.
  intros Hm Hct Henc Hne. split; [apply get_content_type_not_empty|].
  rewrite (set_response_plain_text self response message "txt" Hm).
  - by apply set_text_response_encoded.
  - unfold get_content_type. rewrite Hct. do 2 right. left.
Qed.

(** *** What an operation can raise, and what a return means *)

Lemma wp_mono {A} (m : M A) (post post' : Outcome A -> PanWFapi -> list Event -> Prop) self :
  wp m post self -> (forall o s ev, post o s ev -> post' o s ev) -> wp m post' self.
Proof. unfold wp. auto. Qed.

Lemma wp_bind {A B} (m : M A) (k : A -> M B) post self :
  wp m (fun o s ev =>
          match o with
          | Return a => wp (k a) (fun o' s' ev' => post o' s' (ev ++ ev')) s
          | Raise e => post (Raise e) s ev
          end) self ->
  wp (x <~ m ;; k x) post self.
Proof.
  unfold wp, bind. destruct (m self) as [[[a|e] s1] ev1]; cbn; [|done].
  by destruct (k a s1) as [[o s2] ev2].
Qed.

Lemma wp_ret {A} (a : A) post self : post (Return a) self [] -> wp (ret a) post self.
Proof. done. Qed.

Lemma wp_raise {A} e (post : Outcome A -> _) self :
  post (Raise e) self [] -> wp (raise e) post self.
Proof. done. Qed.

Lemma wp_get post self : post (Return self) self [] -> wp get post self.
Proof. done. Qed.

Lemma wp_modify f post self : post (Return tt) (f self) [] -> wp (modify f) post self.
Proof. done. Qed.

Lemma wp_lift {A} (o : Outcome A) post self : post o self [] -> wp (lift o) post self.
Proof. done. Qed.

Lemma wp_emit e post self : post (Return tt) self [e] -> wp (emit e) post self.
Proof. done. Qed.

Lemma wp_clear_response post self :
  post (Return tt) (cleared self) [] -> wp __clear_response post self.
Proof. done. Qed.

Ltac wp_step :=
  lazymatch goal with
  | |- wp (bind _ _) _ _ => apply wp_bind
  | |- wp (ret _) _ _ => apply wp_ret
  | |- wp (raise _) _ _ => apply wp_raise
  | |- wp get _ _ => apply wp_get
  | |- wp (modify _) _ _ => apply wp_modify
  | |- wp (emit _) _ _ => apply wp_emit
  | |- wp __clear_response _ _ => apply wp_clear_response
  | |- wp (lift ?o) _ _ => apply wp_lift; destruct o eqn:?
  | |- wp (if ?b then _ else _) _ _ => destruct b eqn:?
  | |- wp (match ?x with _ => _ end) _ _ => destruct x eqn:?
  | |- wp raise_msg _ _ => unfold raise_msg
  end; cbv beta iota.

Lemma wp_set_response r self m :
  _message self = Some m ->
  wp (__set_response r)
     (fun o s ev =>
        ev = [] /\ http_code s = http_code self
        /\ match o with
           | Return true => _msg s = _msg self
           | Return false => _msg s <> None
           | Raise e => e = UnicodeDecodeError \/ exists t, e = OtherException t
           end) self.
Proof.
  intros Hm. unfold __set_response. munfold.
  repeat wp_step; cbn [app]; repeat split; try congruence; try done.
  all: try (left; by eapply decode_utf8_raises).
  all: try (right; by eexists).
  all: by eapply bool_decide_eq_false_1.
Qed.

Lemma encode_utf8_raises s e : encode_utf8 s = Raise e -> e = UnicodeEncodeError.
Proof.
  unfold encode_utf8. destruct (omap utf8_encode_cp s) as [l|e'] eqn:Hs; [done|].
  intros [= ->]. revert e Hs.
  induction s as [|c s IH]; intros e; [done|]. cbn [omap].
  destruct (utf8_encode_cp c) as [x|e'] eqn:Hc; cbn [obind].
  - destruct (omap utf8_encode_cp s); [done|]. intros [= <-]. by apply IH.
  - intros [= <-]. unfold utf8_encode_cp in Hc.
    repeat match type of Hc with
           | context [if ?b then _ else _] => destruct b
           end; congruence.
Qed.

Lemma encode_latin1_raises s e : encode_latin1 s = Raise e -> e = UnicodeEncodeError.
Proof.
  unfold encode_latin1. revert e.
  induction s as [|c s IH]; intros e; [done|]. cbn [omap].
  destruct (Byte.of_N c); cbn [obind]; [|congruence].
  destruct (omap _ s); [done|]. intros [= <-]. by apply IH.
Qed.

Lemma decode_ascii_raises l e : decode_ascii l = Raise e -> e = UnicodeDecodeError.
Proof.
  unfold decode_ascii. revert e.
  induction l as [|x l IH]; intros e; [done|]. cbn [omap].
  destruct (_ <? _); cbn [obind]; [|congruence].
  destruct (omap _ l); [done|]. intros [= <-]. by apply IH.
Qed.

Lemma as_bytes_raises encode data e :
  (forall s e, encode s = Raise e -> e = UnicodeEncodeError) ->
  as_bytes encode data = Raise e -> e = UnicodeEncodeError.
Proof. intros H. destruct data; [apply H|done]. Qed.

Lemma wp_api_request request_uri data hdrs self :
  wp (__api_request request_uri data hdrs)
     (fun o s ev =>
        one_request self request_uri data hdrs ev
        /\ match o with
           | Return None => _msg s <> None
           | Return (Some r) =>
             (exists m, _message s = Some m) /\ http_code s = Some (getcode r)
             /\ is_2xx (getcode r) = true /\ _msg s = _msg self /\ ev <> []
           | Raise e => raised_with e s
           end) self.
Proof.
  unfold __api_request, one_request.
  apply wp_bind, wp_get; cbv beta iota. apply wp_bind, wp_lift.
  destruct (as_bytes encode_utf8 data) as [payload|e] eqn:Henc; cbv beta iota.
  2:{ split; [done|]. right. left.
      eapply as_bytes_raises; [apply encode_utf8_raises|done]. }
  fold (kwargs_of self request_uri payload hdrs).
  apply wp_bind, wp_emit; cbv beta iota.
  assert (forall ev : list Event,
             ev = [EvUrlopen (kwargs_of self request_uri payload hdrs)] ->
             ev = [EvUrlopen (kwargs_of self request_uri payload hdrs)])
    as Hev by done.
  destruct (_urlopen _) as [e|e|r|e].
  - repeat wp_step. split; [by apply Hev|done].
  - repeat wp_step. split; [by apply Hev|done].
  - do 2 (apply wp_bind, wp_modify; cbv beta iota). apply wp_bind.
    match goal with
    | |- wp ?m _ ?s =>
      assert (exists s', m s = (Return tt, s', [])
                         /\ _msg s' = _msg self /\ http_code s' = Some (getcode r))
        as (s' & Hs' & Hmsg & Hcode)
    end.
    { destruct (bool_decide _); [|by eexists].
      destruct (_wildfire_responses !! _); [by eexists|].
      destruct (responses !! _); by eexists. }
    unfold wp at 1. rewrite Hs'. cbn [outcome final activity fst snd].
    destruct (info r) as [e|message].
    + wp_step. split; [by apply Hev|]. left. eexists. split; [done|].
      eexists. split; [done|]. right. right. by eexists.
    + apply wp_bind, wp_modify; cbv beta iota. apply wp_bind, wp_get; cbv beta iota.
      destruct (negb _) eqn:H2xx.
      * apply wp_bind, wp_modify; cbv beta iota. apply wp_bind.
        eapply wp_mono; [by apply (wp_set_response r _ message)|]. cbv beta.
        intros o s ev (-> & _ & Ho). destruct o as [[]|e].
        -- wp_step. split; [by apply Hev|]. cbn in Ho. congruence.
        -- wp_step. split; [by apply Hev|]. done.
        -- split; [by apply Hev|]. right. right. exact Ho.
      * wp_step. split; [by apply Hev|]. apply negb_false_iff in H2xx.
        split; [by eexists|]. done.
  - wp_step. split; [by apply Hev|]. do 3 right. by eexists.
Qed.

Lemma wp_check_response resp self :
  match resp with
  | None => _msg self <> None
  | Some _ => exists m, _message self = Some m
  end ->
  wp (check_response resp)
     (fun o s ev =>
        ev = []
        /\ match o with
           | Return _ => (exists r, resp = Some r) /\ http_code s = http_code self
                         /\ _msg s = _msg self
           | Raise e => raised_with e s
           end) self.
Proof.
  intros Hpre. unfold check_response. destruct resp as [r|].
  - destruct Hpre as [m Hm]. apply wp_bind.
    eapply wp_mono; [by apply (wp_set_response r _ m)|]. cbv beta.
    intros o s ev (-> & Hcode & Ho). destruct o as [[]|e].
    + wp_step. split; [done|]. split; [by eexists|]. done.
    + repeat wp_step. split; [done|]. left. eexists. split; [done|].
      destruct (_msg s) as [msg|] eqn:Hmsg; [|done]. exists msg. by split; [|left].
    + split; [done|]. right. right. exact Ho.
  - repeat wp_step. split; [done|]. left. eexists. split; [done|].
    destruct (_msg self) as [msg|] eqn:Hmsg; [|done]. exists msg. by split; [|left].
Qed.

Lemma wp_exchange request_uri data hdrs self :
  wp (exchange request_uri data hdrs)
     (fun o s ev =>
        one_request self request_uri data hdrs ev
        /\ match o with
           | Return _ => (exists code, http_code s = Some code /\ is_2xx code = true)
                         /\ _msg s = _msg self /\ ev <> []
           | Raise e => raised_with e s
           end) self.
Proof.
  unfold exchange. apply wp_bind.
  eapply wp_mono; [apply wp_api_request|]. cbv beta.
  intros o s ev [Hev Ho]. fold (one_request self request_uri data hdrs ev) in Hev.
  destruct o as [resp|e]; [|done].
  eapply wp_mono; [apply (wp_check_response resp s)|].
  - destruct resp; [apply Ho|done].
  - cbv beta. intros o' s' ev' (-> & Ho'). rewrite app_nil_r. split; [done|].
    destruct o' as [[]|e]; [|done].
    destruct Ho' as ([r ->] & Hcode & Hmsg). destruct Ho as (_ & Hc & H2 & Hm & Hne).
    split; [exists (getcode r); split; congruence|]. split; [congruence|]. done.
Qed.

Lemma encode_field_raises name value e :
  _encode_field name value = Raise e -> e = UnicodeEncodeError.
Proof. unfold _encode_field. cbn [_rfc2231_encode negb]. apply encode_utf8_raises. Qed.

Lemma append_header_single_raises name value h b e :
  append_header name value {| headers := [h]; body := b |} = Raise e ->
  e = UnicodeEncodeError.
Proof.
  rewrite append_header_single.
  destruct (_encode_field name value) eqn:Hf; [done|].
  intros [= <-]. by eapply encode_field_raises.
Qed.

Lemma add_body_raises data part e :
  add_body data part = Raise e -> e = UnicodeEncodeError.
Proof.
  unfold add_body. destruct (as_bytes encode_latin1 data) eqn:Hd; [done|].
  intros [= <-]. eapply as_bytes_raises; [apply encode_latin1_raises|done].
Qed.

Lemma FormDataPart_init_raises name data e :
  _FormDataPart_init name data = Raise e -> e = UnicodeEncodeError.
Proof.
  unfold _FormDataPart_init, add_header. cbn [headers body app].
  rewrite append_header_single.
  destruct (_encode_field (slit "name") name) eqn:Hf; cbn [obind].
  - destruct data; [apply add_body_raises|done].
  - intros [= <-]. by eapply encode_field_raises.
Qed.

Lemma add_field_raises name value form e :
  add_field name value form = Raise e -> e = UnicodeEncodeError.
Proof.
  unfold add_field. destruct (_FormDataPart_init name value) eqn:Hp; [done|].
  intros [= <-]. by eapply FormDataPart_init_raises.
Qed.

Lemma add_field_opt_raises k v form e :
  add_field_opt k v form = Raise e -> e = UnicodeEncodeError.
Proof. destruct v; [apply add_field_raises|done]. Qed.

Lemma add_file_raises filename data form e :
  add_file filename data form = Raise e -> e = UnicodeEncodeError.
Proof.
  unfold add_file. rewrite FormDataPart_init_file. cbn [obind].
  destruct filename as [fn|].
  - rewrite append_header_single.
    destruct (_encode_field (slit "filename") fn) eqn:Hf; cbn [obind].
    + destruct data as [d|]; [|done]. unfold add_header. cbn [headers body app].
      destruct (add_body d _) eqn:Hb; [done|]. intros [= <-]. by eapply add_body_raises.
    + intros [= <-]. by eapply encode_field_raises.
  - cbn [obind]. destruct data as [d|]; [|done]. unfold add_header. cbn [headers body app].
    destruct (add_body d _) eqn:Hb; [done|]. intros [= <-]. by eapply add_body_raises.
Qed.

Lemma http_headers_raises form e :
  http_headers form = Raise e -> e = UnicodeDecodeError.
Proof.
  unfold http_headers. destruct (decode_ascii (boundary form)) eqn:Hd; [done|].
  intros [= <-]. by eapply decode_ascii_raises.
Qed.

Ltac raised :=
  match goal with
  | H : add_field _ _ _ = Raise ?e |- _ => apply add_field_raises in H
  | H : add_field_opt _ _ _ = Raise ?e |- _ => apply add_field_opt_raises in H
  | H : add_file _ _ _ = Raise ?e |- _ => apply add_file_raises in H
  | H : http_headers _ = Raise ?e |- _ => apply http_headers_raises in H
  end; subst.

Ltac events_tac :=
  repeat first [apply sublist_nil_l | apply sublist_skip].

Ltac exchange_leaf :=
  lazymatch goal with
  | |- wp (bind (__api_request ?U ?D ?H) _) _ (cleared ?self) =>
    apply (wp_mono (exchange U D H) _ _ _ (wp_exchange U D H (cleared self)));
    let o := fresh "o" in
    let s := fresh "s" in
    let ev := fresh "ev" in
    let Hreq := fresh "Hreq" in
    let Hout := fresh "Hout" in
    let payload := fresh "payload" in
    intros o s ev [Hreq Hout]; unfold one_request in Hreq;
    destruct (as_bytes encode_utf8 D) as [payload|] eqn:?; subst ev;
    (split;
     [ exists (drop 11 U);
       first [ exists payload | exists [] ]; exists H;
       cbn [app opens submitted_file];
       try change (kwargs_of (cleared self) U payload H)
         with (kwargs_of self (slit "/publicapi/" ++ drop 11 U) payload H);
       events_tac
     | destruct o;
       [ destruct Hout as (? & Hout & ?); repeat split;
         [ assumption
         | rewrite Hout; reflexivity
         | try (exfalso; congruence); cbn [app]; eexists; rewrite ?elem_of_cons;
           repeat first [left; reflexivity | right] ]
       | exact Hout ] ])
  end.

Ltac raise_leaf :=
  split;
  [ exists [], [], []; cbn [app opens submitted_file]; events_tac
  | try raised; unfold raised_with;
    first [ left; eexists; split; [reflexivity|]; eexists; split; [reflexivity|];
            first [left; reflexivity | right; left; reflexivity]
          | tauto ] ].

Lemma run_spec c self : wp (run c) (run_post self c) self.
Proof.
  destruct c as [h f u|h u|hs|d|h|h p|f u l|h v e c|t]; cbn [run];
    unfold report, verdict, verdicts, verdicts_changed, sample, pcap, submit,
      change_request, testfile, submit_request, _read_file.
  all: repeat first [exchange_leaf | wp_step].
  all: try raise_leaf.
  match goal with H : negb _ = false |- _ => discriminate H end.
Qed.

(** X13: every operation is its preparation followed by one exchange: it either
    raises while it prepares the request, having at most opened the file it
    was given, or ends as the exchange of the request with the service does,
    started from the cleared instance. *)
Theorem operations_end_in_exchange c self :
  (exists e,
     outcome (run c self) = Raise e
     /\ activity (run c self) `sublist_of` opens (submitted_file c))
  \/ exists path data hdrs,
       let r := exchange (slit "/publicapi/" ++ path) data hdrs (cleared self) in
       run c self = (outcome r, final r, opens (submitted_file c) ++ activity r).
Proof.
  assert (wp (run c)
             (fun o s ev =>
                (exists e, o = Raise e
                           /\ ev `sublist_of` opens (submitted_file c))
                \/ exists path data hdrs,
                     let r := exchange (slit "/publicapi/" ++ path) data hdrs
                                       (cleared self) in
                     (o, s, ev) = (outcome r, final r,
                                   opens (submitted_file c) ++ activity r)) self)
    as Hwp.
  2:{ unfold wp in Hwp. destruct Hwp as [(e & He & Hev)|(path & data & hdrs & Hr)].
      - left. by exists e.
      - right. exists path, data, hdrs. cbn zeta in *.
        destruct (run c self) as [[o s] ev]. exact Hr. }
  destruct c as [h f u|h u|hs|d|h|h p|f u l|h v e c|t]; cbn [run];
    unfold report, verdict, verdicts, verdicts_changed, sample, pcap, submit,
      change_request, testfile, submit_request, _read_file.
  all: repeat
         lazymatch goal with
         | |- wp (bind (__api_request ?U ?D ?H) _) _ _ =>
           unfold wp; right; exists (drop 11 U), D, H; reflexivity
         | _ => wp_step
         end.
  all: left; eexists; split; [reflexivity|];
            cbn [app opens submitted_file]; events_tac.
Qed.

(** X14: a [PanWFapiError] that an operation raises always carries a
    message, never [None]; and the message is the one that the operation
    leaves in [_msg], unless it is the message of the precondition of
    [submit] or the 'email.message_from_string() ' message for response
    headers that cannot be read, neither of which is stored. *)
Theorem operations_error_message_kept c self m :
  outcome (run c self) = Raise (PanWFapiError m) ->
  message_kept m (final (run c self)).
Proof.
  intros He. destruct (run_spec c self) as [_ Hout]. rewrite He in Hout.
  destruct Hout as [(m' & [= <-] & Hkept)|[[=]|[[=]|[t [=]]]]]. exact Hkept.
Qed.

(** X15: an operation that returns has made its request, was answered with a 2xx
    status, and leaves no error message behind. *)
Theorem operations_return_after_2xx c self :
  outcome (run c self) = Return tt ->
  (exists code, http_code (final (run c self)) = Some code
                /\ (200 <= code < 300)%Z)
  /\ _msg (final (run c self)) = None
  /\ exists kwargs, EvUrlopen kwargs ∈ activity (run c self).
Proof.
  intros Ho. destruct (run_spec c self) as [_ Hout]. rewrite Ho in Hout.
  destruct Hout as ((code & Hcode & H2xx) & Hmsg & Hev).
  repeat split; [|done..]. exists code. split; [done|].
  unfold is_2xx in H2xx. apply andb_true_iff in H2xx as [? ?]. lia.
Qed.


(** *** The multipart form, part by part *)

Lemma omap_app {A B} (f : A -> Outcome B) l1 l2 :
  omap f (l1 ++ l2)
  = (x <-- omap f l1 ;; y <-- omap f l2 ;; Return (x ++ y)).
Proof.
  induction l1 as [|a l1 IH]; cbn [omap app obind].
  - by destruct (omap f l2).
  - destruct (f a); cbn [obind]; [|done]. rewrite IH.
    destruct (omap f l1); cbn [obind]; [|done]. by destruct (omap f l2).
Qed.

Lemma encode_utf8_app s1 s2 :
  encode_utf8 (s1 ++ s2)
  = (x <-- encode_utf8 s1 ;; y <-- encode_utf8 s2 ;; Return (x ++ y)).
Proof.
  unfold encode_utf8. rewrite omap_app.
  destruct (omap utf8_encode_cp s1); cbn [obind]; [|done].
  destruct (omap utf8_encode_cp s2); cbn [obind]; [|done].
  by rewrite concat_app.
Qed.

Lemma encode_field_eq name value :
  _encode_field name value
  = (n <-- encode_utf8 name ;;
     v <-- encode_utf8 value ;;
     Return (n ++ blit "=" ++ [DQUOTE] ++ v ++ [DQUOTE])).
Proof.
  unfold _encode_field, fmt_quoted. cbn [_rfc2231_encode negb].
  rewrite encode_utf8_app. destruct (encode_utf8 name) as [n|]; cbn [obind]; [|done].
  change (slit "=" ++ [Byte.to_N DQUOTE] ++ value ++ [Byte.to_N DQUOTE])
    with ([61; 34] ++ value ++ [34]).
  rewrite !encode_utf8_app.
  change (encode_utf8 [61; 34]) with (Return [byte_of 61; byte_of 34]).
  change (encode_utf8 [34]) with (Return [byte_of 34]).
  cbn [obind]. destruct (encode_utf8 value) as [v|]; cbn [obind]; [|done].
  reflexivity.
Qed.

(** X17: [_encode_field] puts the UTF-8 bytes of the value between two
    double quotes as they are: a quote, a backslash or a line break in the
    value is not escaped. *)
Theorem encode_field_verbatim name value n v :
  encode_utf8 name = Return n -> encode_utf8 value = Return v ->
  _encode_field name value = Return (n ++ blit "=" ++ [DQUOTE] ++ v ++ [DQUOTE]).
Proof. intros Hn Hv. by rewrite encode_field_eq, Hn, Hv. Qed.

Lemma b64encode_length_aux n :
  forall s, (length s <= n)%nat ->
            length (b64encode s) = (4 * ((length s + 2) / 3))%nat.
Proof.
  induction n as [|n IH]; intros s Hn.
  - destruct s; [done|cbn in Hn; lia].
  - destruct s as [|a [|c [|d t]]]; [done..|].
    cbn [b64encode length]. cbn [length] in Hn. rewrite IH by lia.
    replace (S (S (S (length t))) + 2)%nat with (1 * 3 + (length t + 2))%nat by lia.
    rewrite Nat.div_add_l by lia. lia.
Qed.

Lemma b64encode_length s :
  length (b64encode s) = (4 * ((length s + 2) / 3))%nat.
Proof. by apply (b64encode_length_aux (length s)). Qed.

(** X18: the boundary of a form is 80 bytes long whenever [os.urandom(48)]
    keeps its contract of returning 48 bytes: 16 underscores, then the 64
    characters of the Base64 text, none of them a line break or outside
    ASCII. *)
Theorem boundary_shape :
  (forall s, os_urandom 48 = Some s -> length s = 48%nat) ->
  length _boundary = 80%nat
  /\ take 16 _boundary = replicate 16 (byte_of 95)
  /\ Forall (fun x => line_safe x = true) _boundary.
Proof.
  intros Hlen. split; [|split; [reflexivity|apply boundary_safe]].
  unfold _boundary. cbn zeta. rewrite length_app, b64encode_length.
  change (length (concat (replicate 16 (blit "_")))) with 16%nat.
  destruct (os_urandom 48) as [s|] eqn:Hs.
  - by rewrite (Hlen s eq_refl).
  - by rewrite length_fmap, length_seq.
Qed.

Lemma decode_ascii_safe l :
  Forall (fun x => line_safe x = true) l ->
  decode_ascii l = Return (Byte.to_N <$> l).
Proof.
  unfold decode_ascii. induction 1 as [|x l Hx Hl IH]; [done|].
  cbn [omap fmap list_fmap]. unfold line_safe in Hx.
  apply andb_true_iff in Hx as [_ Hx]. rewrite Hx. cbn [obind].
  rewrite IH. done.
Qed.

(** X19: the Content-Type header of a form names the boundary of the form, byte
    for byte: it is the only header, and making it does not fail. *)
Theorem http_headers_boundary form :
  built form ->
  http_headers form
  = Return [(slit "Content-Type",
             slit "multipart/form-data; boundary=" ++ (Byte.to_N <$> boundary form))].
Proof.
  intros Hb. unfold http_headers. rewrite (built_boundary form Hb).
  rewrite decode_ascii_safe by apply boundary_safe. done.
Qed.

(** *** What the form operations send *)

Lemma wp_exchange_sends request_uri b hdrs (Q : list Event -> Prop) self :
  Q [EvUrlopen (kwargs_of self request_uri b hdrs)] ->
  wp (response <~ __api_request request_uri (DBytes b) hdrs ;;
      check_response response)
     (fun _ _ ev => Q ev) self.
Proof.
  intros HQ.
  apply (wp_mono _ _ _ _ (wp_exchange request_uri (DBytes b) hdrs self)).
  intros o s ev [Hreq _]. unfold one_request in Hreq. cbn [as_bytes] in Hreq.
  by subst ev.
Qed.

Lemma add_field_last name v form form' payload k :
  name = slit k -> encode_utf8 (slit k) = Return (blit k) ->
  add_field name (Some (DStr v)) form = Return form' ->
  encode_latin1 v = Return payload ->
  last (parts form') = Some (field_part k payload).
Proof.
  intros -> Hk Hadd Hv. unfold add_field, _FormDataPart_init, add_header in Hadd.
  cbn [headers body app] in Hadd. rewrite append_header_single in Hadd.
  rewrite encode_field_eq in Hadd.
  change (encode_utf8 (slit "name")) with (Return (blit "name")) in Hadd.
  rewrite Hk in Hadd. cbn [obind] in Hadd. unfold add_body in Hadd.
  cbn [as_bytes] in Hadd. rewrite Hv in Hadd. cbn [obind] in Hadd.
  injection Hadd as <-. cbn [parts]. rewrite last_snoc. reflexivity.
Qed.

Lemma add_file_last fn name (d : Data) payload form form' :
  add_file (Some fn) (Some d) form = Return form' ->
  encode_utf8 fn = Return name ->
  as_bytes encode_latin1 d = Return payload ->
  last (parts form') = Some (file_part name payload).
Proof.
  intros Hadd Hfn Hd. unfold add_file in Hadd.
  rewrite FormDataPart_init_file in Hadd. cbn [obind] in Hadd.
  rewrite append_header_single, encode_field_eq in Hadd.
  change (encode_utf8 (slit "filename")) with (Return (blit "filename")) in Hadd.
  rewrite Hfn in Hadd. cbn [obind] in Hadd. unfold add_header, add_body in Hadd.
  cbn [headers body app] in Hadd. rewrite Hd in Hadd. cbn [obind] in Hadd.
  injection Hadd as <-. cbn [parts]. rewrite last_snoc. reflexivity.
Qed.

Lemma given_count_file path :
  path <> [] -> given_count (Some path) None None = 1%nat.
Proof. by destruct path. Qed.

Ltac absurd_raise :=
  match goal with
  | H : ?o = Raise _ |- _ =>
    assert (succeeds o) as [? Hs]; [|rewrite Hs in H; discriminate H]
  end.

(** X20: submitting a file that cannot be opened raises [PanWFapiError] with the
    path and the reason of the failure, having tried to open the file and
    made no request. *)
Theorem submit_unreadable_file self path url links e :
  path <> [] -> py_bool url = false -> py_bool links = false ->
  latin1 (api_key self) -> (forall a, agent self = Some a -> latin1 a) ->
  open_rb path = inl e ->
  submit (Some path) url links self
  = (Raise (PanWFapiError (Some (slit "open: " ++ path ++ slit ": " ++ e))),
     set_msg (Some (slit "open: " ++ path ++ slit ": " ++ e)) (cleared self),
     [EvOpen path]).
Proof.
  intros Hpath Hurl Hlinks Hkey Hagent Hopen.
  assert (given_count (Some path) url links = 1%nat) as Hcount.
  { unfold given_count. cbn [fmap list_fmap]. rewrite Hurl, Hlinks.
    by destruct path. }
  unfold submit. rewrite bind_clear, Hcount. cbn [Nat.eqb negb].
  unfold submit_request. rewrite bind_ret, bind_get.
  destruct (add_field_ok (slit "apikey") (api_key (cleared self)) _MultiPartFormData_init)
    as [form1 H1]; [vm_compute; by eexists|exact Hkey|].
  rewrite H1, bind_lift_return.
  destruct (add_field_opt_ok "agent" (agent (cleared self)) form1)
    as [form2 H2]; [vm_compute; by eexists|exact Hagent|].
  rewrite H2, bind_lift_return.
  rewrite bind_assoc. unfold _read_file. rewrite bind_assoc.
  apply bind_emit_eq. rewrite Hopen.
  rewrite bind_assoc, bind_modify, bind_ret. unfold raise_msg.
  rewrite bind_assoc, bind_get. reflexivity.
Qed.

Lemma add_file_bytes_ok fn buf form :
  succeeds (encode_utf8 fn) ->
  succeeds (add_file (Some fn) (Some (DBytes buf)) form).
Proof.
  intros [name Hfn]. unfold add_file. rewrite FormDataPart_init_file. cbn [obind].
  rewrite append_header_single, encode_field_eq.
  change (encode_utf8 (slit "filename")) with (Return (blit "filename")).
  rewrite Hfn. cbn [obind]. by eexists.
Qed.

Ltac wp_form :=
  repeat first [ apply wp_exchange_sends | wp_step ].

Ltac drop_none :=
  repeat match goal with
         | H : add_field_opt _ None _ = Return _ |- _ =>
           cbn [add_field_opt] in H; injection H as <-
         end.

Ltac sends_tac :=
  lazymatch goal with
  | Hh : http_headers ?form = Return ?hdrs |- sends _ _ _ _ _ =>
    exists form, hdrs; split; [reflexivity|];
    split; [by built_tac|]; split; [exact Hh|]
  end.

(** X21: submitting a readable file opens it once and then sends one request,
    to /publicapi/submit/file, whose form ends in the file part: the bytes
    read, unchanged, under the base name of the path. *)
Theorem submit_file_uploads self path buf name :
  path <> [] ->
  latin1 (api_key self) -> (forall a, agent self = Some a -> latin1 a) ->
  open_rb path = inr buf -> encode_utf8 (basename path) = Return name ->
  sends self (Some path) (slit "/publicapi/submit/file") (file_part name buf)
        (activity (submit (Some path) None None self)).
Proof.
  intros Hpath Hkey Hagent Hopen Hname.
  change (wp (submit (Some path) None None)
             (fun _ _ ev => sends self (Some path) (slit "/publicapi/submit/file")
                                  (file_part name buf) ev) self).
  unfold submit, submit_request, _read_file.
  rewrite (given_count_file path Hpath), Hopen. cbn [Nat.eqb negb].
  wp_form.
  all: try absurd_raise.
  - drop_none. sends_tac. by eapply add_file_last.
  - apply http_headers_ok. by built_tac.
  - by eexists.
  - apply add_file_bytes_ok. by eexists.
  - by apply add_field_opt_ok; [vm_compute; eexists|].
  - by apply add_field_ok; [vm_compute; eexists|].
Qed.

Lemma add_field_payload_ok name v payload form :
  succeeds (_encode_field (slit "name") name) ->
  encode_latin1 v = Return payload ->
  succeeds (add_field name (Some (DStr v)) form).
Proof.
  intros [f Hf] Hv. unfold add_field, _FormDataPart_init, add_header.
  cbn [headers body app]. rewrite append_header_single, Hf. cbn [obind].
  unfold add_body. cbn [as_bytes]. rewrite Hv. cbn [obind]. by eexists.
Qed.

(** X22: submitting a URL sends one request, to /publicapi/submit/url, whose
    form ends in a field named 'url' with the Latin-1 bytes of the URL. *)
Theorem submit_url_field self url payload :
  url <> [] ->
  latin1 (api_key self) -> (forall a, agent self = Some a -> latin1 a) ->
  encode_latin1 url = Return payload ->
  sends self None (slit "/publicapi/submit/url") (field_part "url" payload)
        (activity (submit None (Some url) None self)).
Proof.
  intros Hurl Hkey Hagent Hpayload.
  change (wp (submit None (Some url) None)
             (fun _ _ ev => sends self None (slit "/publicapi/submit/url")
                                  (field_part "url" payload) ev) self).
  unfold submit, submit_request.
  replace (given_count None (Some url) None) with 1%nat by by destruct url.
  cbn [Nat.eqb negb].
  wp_form.
  all: try absurd_raise.
  - sends_tac. by eapply (add_field_last (slit "url") url).
  - apply http_headers_ok. by built_tac.
  - by eapply add_field_payload_ok; [vm_compute; eexists|].
  - by apply add_field_opt_ok; [vm_compute; eexists|].
  - by apply add_field_ok; [vm_compute; eexists|].
Qed.

(** X23: submitting a list of one link sends one request, to
    /publicapi/submit/link, whose form ends in a field named 'link' with
    the Latin-1 bytes of the link: no file part and no marker line. *)
Theorem submit_single_link self link payload :
  latin1 (api_key self) -> (forall a, agent self = Some a -> latin1 a) ->
  encode_latin1 link = Return payload ->
  sends self None (slit "/publicapi/submit/link") (field_part "link" payload)
        (activity (submit None None (Some [link]) self)).
Proof.
  intros Hkey Hagent Hpayload.
  change (wp (submit None None (Some [link]))
             (fun _ _ ev => sends self None (slit "/publicapi/submit/link")
                                  (field_part "link" payload) ev) self).
  unfold submit, submit_request. cbn [given_count]. 
  change (negb _) with false. cbv iota.
  change (length [link] <? 2)%nat with true. cbv iota.
  wp_form.
  all: try absurd_raise.
  - drop_none. sends_tac. by eapply (add_field_last (slit "link") link).
  - apply http_headers_ok. by built_tac.
  - by eapply add_field_payload_ok; [vm_compute; eexists|].
  - by eexists.
  - by apply add_field_opt_ok; [vm_compute; eexists|].
  - by apply add_field_ok; [vm_compute; eexists|].
Qed.

(** X24: [verdicts] sends its hashes in a plain field named 'file', one hash per
    line: one request, to /publicapi/get/verdicts. *)
Theorem verdicts_hashes_field self hashes payload :
  latin1 (api_key self) -> (forall a, agent self = Some a -> latin1 a) ->
  encode_latin1 (sep_join [Byte.to_N LF] hashes) = Return payload ->
  sends self None (slit "/publicapi/get/verdicts") (field_part "file" payload)
        (activity (verdicts (Some hashes) self)).
Proof.
  intros Hkey Hagent Hpayload.
  change (wp (verdicts (Some hashes))
             (fun _ _ ev => sends self None (slit "/publicapi/get/verdicts")
                                  (field_part "file" payload) ev) self).
  unfold verdicts. cbn [fmap option_fmap option_map].
  wp_form.
  all: try absurd_raise.
  - sends_tac. by eapply (add_field_last (slit "file")).
  - apply http_headers_ok. by built_tac.
  - by eapply add_field_payload_ok; [vm_compute; eexists|].
  - by apply add_field_opt_ok; [vm_compute; eexists|].
  - by apply add_field_ok; [vm_compute; eexists|].
Qed.

Lemma add_field_fields k v form form' fields :
  encode_utf8 (slit k) = Return (blit k) ->
  add_field (slit k) (Some (DStr v)) form = Return form' ->
  Forall2 is_field (parts form) fields ->
  Forall2 is_field (parts form') (fields ++ [(k, v)]).
Proof.
  intros Hk Hadd Hparts. unfold add_field, _FormDataPart_init, add_header in Hadd.
  cbn [headers body app] in Hadd. rewrite append_header_single in Hadd.
  rewrite encode_field_eq in Hadd.
  change (encode_utf8 (slit "name")) with (Return (blit "name")) in Hadd.
  rewrite Hk in Hadd. cbn [obind] in Hadd. unfold add_body in Hadd.
  cbn [as_bytes] in Hadd.
  destruct (encode_latin1 v) as [payload|] eqn:Hv; [|done]. cbn [obind] in Hadd.
  injection Hadd as <-. cbn [parts].
  apply Forall2_app; [done|]. constructor; [|constructor].
  by exists payload.
Qed.

Lemma add_field_opt_fields k v form form' fields :
  encode_utf8 (slit k) = Return (blit k) ->
  add_field_opt k v form = Return form' ->
  Forall2 is_field (parts form) fields ->
  Forall2 is_field (parts form') (fields ++ given k v).
Proof.
  intros Hk Hadd Hparts. destruct v as [x|]; cbn [add_field_opt given] in *.
  - by eapply add_field_fields.
  - injection Hadd as <-. by rewrite app_nil_r.
Qed.

(** X30: [change_request] sends one request, to
    /publicapi/submit/change-request, whose form holds these fields and no
    other part, in this order: 'apikey', 'agent' if the instance has one,
    and 'hash', 'verdict', 'email' and 'comment' for each of these
    arguments that is not [None], each with the Latin-1 bytes of its
    value. *)
Theorem change_request_fields self h v e c :
  latin1 (api_key self) -> (forall a, agent self = Some a -> latin1 a) ->
  (forall x, h = Some x -> latin1 x) -> (forall x, v = Some x -> latin1 x) ->
  (forall x, e = Some x -> latin1 x) -> (forall x, c = Some x -> latin1 x) ->
  exists form hdrs,
    activity (change_request h v e c self)
    = [EvUrlopen (kwargs_of self (slit "/publicapi/submit/change-request")
                            (http_body form) hdrs)]
    /\ http_headers form = Return hdrs
    /\ Forall2 is_field (parts form)
         ([("apikey", api_key self)] ++ given "agent" (agent self)
            ++ given "hash" h ++ given "verdict" v ++ given "email" e
            ++ given "comment" c).
Proof.
  intros Hkey Hagent Hh Hv He Hc.
  change (wp (change_request h v e c)
             (fun _ _ ev =>
                exists form hdrs,
                  ev = [EvUrlopen (kwargs_of self
                                     (slit "/publicapi/submit/change-request")
                                     (http_body form) hdrs)]
                  /\ http_headers form = Return hdrs
                  /\ Forall2 is_field (parts form)
                       ([("apikey", api_key self)] ++ given "agent" (agent self)
                          ++ given "hash" h ++ given "verdict" v ++ given "email" e
                          ++ given "comment" c)) self).
  unfold change_request.
  wp_form.
  all: try absurd_raise.
  all: try (by apply add_field_opt_ok; [vm_compute; eexists|]).
  all: try (by apply add_field_ok; [vm_compute; eexists|]).
  all: try (apply http_headers_ok; by built_tac).
  match goal with
  | Hh : http_headers ?form = Return ?hdrs |- _ =>
    exists form, hdrs; split; [reflexivity|]; split; [exact Hh|]
  end.
  rewrite !app_assoc.
  repeat (eapply add_field_opt_fields; [reflexivity|eassumption|]).
  eapply (add_field_fields "apikey" _ _ _ []); [reflexivity|eassumption|].
  constructor.
Qed.

(** *** The constructor *)

Section Constructor.

Context {startup : Startup}.

(** X25: the constructor raises nothing but [PanWFapiError] with a message. *)
Theorem init_raises_PanWFapiError t h k tm http ctx a e :
  __init__ t h k tm http ctx a = Raise e ->
  exists msg, e = PanWFapiError (Some msg).
Proof.
  unfold __init__.
  repeat match goal with
         | |- context [match ?x with _ => _ end] =>
           lazymatch x with
           | context [match _ with _ => _ end] => fail
           | _ => destruct x eqn:?
           end; cbn [obind]
         end.
  all: intros [= <-]; by eexists.
Qed.

(** X26: a timeout that is an integer but not a positive one is refused with the
    integer in the message, whatever the other arguments and the
    configuration are: the timeout is checked first. *)
Theorem init_invalid_timeout t h k x z http ctx a :
  int x = Some z -> (z <= 0)%Z ->
  __init__ t h k (Some x) http ctx a
  = Raise (PanWFapiError (Some (slit "Invalid timeout: " ++ slit (pretty z)))).
Proof.
  intros Hint Hz. unfold __init__. rewrite Hint.
  destruct (Z.ltb_spec 0 z); [lia|]. reflexivity.
Qed.

Lemma init_inv t h k tm http ctx a c :
  __init__ t h k tm http ctx a = Return c ->
  exists panrc,
    PanRc t (panrc_item "agent" a
               (panrc_item "api_key" k (panrc_item "hostname" h ∅))) = inr panrc
    /\ panrc !! "api_key" = Some (api_key (instance c))
    /\ agent (instance c) = match panrc !! "agent" with
                            | Some x => Some x
                            | None => a
                            end
    /\ hostname c = default _cloud_server (panrc !! "hostname")
    /\ uri (instance c) = scheme http ++ hostname c
    /\ (timeout (instance c) = None <-> tm = None)
    /\ (forall z, timeout (instance c) = Some z -> (0 < z)%Z)
    /\ ssl_context (instance c)
       = match ctx with
         | Some x => Some x
         | None => if _have_certifi then Some _certifi_ssl_context else None
         end.
Proof.
  unfold __init__.
  destruct tm as [x|]; [destruct (int x) as [z|]; [destruct (Z.ltb_spec 0 z)|]|];
    cbn [negb obind]; try done.
  all: destruct ctx; [destruct ssl_has_SSLContext|destruct _have_certifi];
    cbn [obind]; try done.
  all: destruct (PanRc _ _) as [msg|panrc]; [done|].
  all: destruct (panrc !! "api_key") as [key|] eqn:Hkey; [|done].
  all: intros [= <-]; exists panrc;
    cbn [instance hostname api_key agent uri timeout ssl_context].
  all: repeat split; try done; try (by destruct http); try congruence.
Qed.

(** X27: a constructed instance has the API key and the agent that the
    configuration gave, a URI that is the scheme and the host name, the
    host name of the configuration or else that of the WildFire cloud, and
    a timeout that is [None] exactly when none was given and positive
    otherwise. *)
Theorem init_instance t h k tm http ctx a c :
  __init__ t h k tm http ctx a = Return c ->
  exists panrc,
    PanRc t (panrc_item "agent" a
               (panrc_item "api_key" k (panrc_item "hostname" h ∅))) = inr panrc
    /\ panrc !! "api_key" = Some (api_key (instance c))
    /\ hostname c = default _cloud_server (panrc !! "hostname")
    /\ uri (instance c) = scheme http ++ hostname c
    /\ (timeout (instance c) = None <-> tm = None)
    /\ (forall z, timeout (instance c) = Some z -> (0 < z)%Z).
Proof.
  intros Hc. destruct (init_inv _ _ _ _ _ _ _ _ Hc)
    as (panrc & Hrc & Hkey & _ & Hhost & Huri & Hnone & Hpos & _).
  by exists panrc.
Qed.


End Constructor.

End Properties.

(** ** The model on the small platform *)

(** The example of the specification: one field, serialized. *)
Example serialize_apikey_field :
  serialize <$> parts Demo.apikey_form
  = [blit "Content-Disposition: form-data; name=" ++ [DQUOTE] ++ blit "apikey"
       ++ [DQUOTE] ++ CRLF ++ CRLF ++ blit "ABC123"].
Proof. reflexivity. Qed.

(** A links submission: one request, to the links endpoint, with the key
    field and the file part of the links. *)
Example submit_two_links_request :
  Demo.sent (activity (submit (platform := Demo.platform) None None
                              (Some Demo.two_links) Demo.client))
  = [(slit "https://wildfire.paloaltonetworks.com/publicapi/submit/links",
      http_body Demo.links_form)].
Proof. vm_compute. reflexivity. Qed.

(** C3, counterexample: [file] and [url] both given, [file] as the empty
    string.  The call does not raise the precondition error: it goes on as
    a file submission, attempts to open the empty path and raises the
    error of that. *)
Lemma submit_empty_file_and_url_proceeds :
  submit (platform := Demo.platform) (Some []) (Some (slit "http://a.example/"))
         None Demo.client
  = (Raise (PanWFapiError
              (Some (slit "open: : [Errno 2] No such file or directory"))),
     set_msg (Some (slit "open: : [Errno 2] No such file or directory"))
             (cleared Demo.client),
     [EvOpen []]).
Proof. vm_compute. reflexivity. Qed.

(** C1, counterexample: an XML response with a body populates both
    [response_body] and [xml_element_root]; and an attachment with an
    empty body populates [attachment]. *)
Lemma classification_populates_two_fields :
  (let r := __set_response (platform := Demo.platform)
              (Demo.response_of "text/xml" None (blit "<a/>"))
              (Demo.receiving "text/xml" None) in
   outcome r = Return true
   /\ response_body (final r) = Some (slit "<a/>")
   /\ xml_element_root (final r) = Some (Elem (slit "a") [] None [] None)
   /\ attachment (final r) = None)
  /\ (let r := __set_response (platform := Demo.platform)
                 (Demo.response_of "application/octet-stream" (Some (slit "a.pcap")) [])
                 (Demo.receiving "application/octet-stream" (Some (slit "a.pcap"))) in
      outcome r = Return true
      /\ attachment (final r)
         = Some (<["content" := DBytes []]> (<["filename" := DStr (slit "a.pcap")]> ∅))
      /\ response_type (final r) = None).
Proof. repeat split. Qed.

Lemma classification_populates_witness :
  __set_response (platform := Demo.platform)
    (Demo.response_of "application/json" None [])
    (Demo.receiving "application/json" None)
  = (Return true,
     set_response_type (Some (slit "json")) (Demo.receiving "application/json" None),
     []).
Proof.
  destruct (classification_populates (platform := Demo.platform)
              (Demo.receiving "application/json" None)
              (Demo.response_of "application/json" None [])
              (Demo.message_of "application/json" None)
              eq_refl eq_refl eq_refl eq_refl eq_refl) as [Hempty _].
  apply Hempty.
  - reflexivity.
  - do 2 right. left.
Defined.

(** C2, counterexample: a field whose value holds '--' + boundary.  The
    form is one the constructor and [add_field] make, it has one part, and
    splitting its body gives four pieces, not the three of the claim. *)
Lemma split_breaks_on_boundary_in_body :
  built (platform := Demo.platform) Demo.colliding_form
  /\ length (parts Demo.colliding_form) = 1%nat
  /\ bytes_split (blit "--" ++ boundary Demo.colliding_form)
                 (http_body Demo.colliding_form)
     = Return [[]; CRLF ++ blit "Content-Disposition: form-data; name="
                     ++ [DQUOTE] ++ blit "note" ++ [DQUOTE] ++ CRLF ++ CRLF;
               CRLF; blit "--"]
  /\ bytes_split (blit "--" ++ boundary Demo.colliding_form)
                 (http_body Demo.colliding_form)
     <> Return ([] :: (framed <$> parts Demo.colliding_form) ++ [blit "--"]).
Proof.
  split; [|split; [reflexivity|split; [vm_compute; reflexivity|]]].
  - apply (built_add_field (slit "note")
             (Some (DBytes (blit "--" ++ boundary Demo.init))) Demo.init);
      [apply built_init|reflexivity].
  - vm_compute. discriminate.
Qed.

Lemma http_body_format_and_split_witness :
  bytes_split (blit "--" ++ boundary Demo.apikey_form) (http_body Demo.apikey_form)
  = Return ([] :: (framed <$> parts Demo.apikey_form) ++ [blit "--"]).
Proof.
  destruct (http_body_format_and_split (platform := Demo.platform) Demo.apikey_form)
    as [_ Hsplit].
  apply Hsplit.
  - apply (built_add_field (slit "apikey") (Some (DStr (slit "ABC123"))) Demo.init);
      [apply built_init|reflexivity].
  - intros part Hpart Hocc.
    assert (part = {| headers := [blit "Content-Disposition: form-data; name="
                                    ++ [DQUOTE] ++ blit "apikey" ++ [DQUOTE]];
                      body := Some (blit "ABC123") |}) as ->.
    { vm_compute in Hpart. by apply list_elem_of_singleton in Hpart. }
    apply (occurs_elem _ _ "_"%byte) in Hocc.
    + vm_compute in Hocc. apply list_elem_of_In in Hocc. cbn in Hocc.
      repeat destruct Hocc as [Hocc|Hocc]; try discriminate Hocc. contradiction.
    + vm_compute. do 2 right. left.
Defined.

Lemma submit_precondition_error_witness :
  (py_bool (Some Demo.sample_path) = true
   /\ py_bool (Some (slit "http://a.example/")) = true)
  /\ submit (platform := Demo.platform) (Some Demo.sample_path)
            (Some (slit "http://a.example/")) None Demo.client
     = (Raise (PanWFapiError (Some (slit "must submit one of file, url or links"))),
        cleared Demo.client, []).
Proof.
  split; [split; reflexivity|].
  apply (submit_precondition_error (platform := Demo.platform)).
  left. split; reflexivity.
Defined.


(** C5, counterexample: [add_file(filename='pan')] makes a file part that
    carries no Content-Type header. *)
Lemma file_part_without_content_type :
  add_file (platform := Demo.platform) (Some (slit "pan")) None Demo.init
  = Return Demo.bodiless_file_form
  /\ (headers <$> parts Demo.bodiless_file_form)
     = [[blit "Content-Disposition: form-data; name=" ++ [DQUOTE] ++ blit "file"
           ++ [DQUOTE] ++ blit "; filename=" ++ [DQUOTE] ++ blit "pan" ++ [DQUOTE]]]
  /\ forall part, part ∈ parts Demo.bodiless_file_form ->
                  blit "Content-Type: application/octet-stream" ∉ headers part.
Proof.
  split; [reflexivity|]. split; [reflexivity|].
  intros part Hpart. vm_compute in Hpart. apply list_elem_of_singleton in Hpart as ->.
  cbn [headers]. intros Hin. apply list_elem_of_singleton in Hin.
  vm_compute in Hin. discriminate Hin.
Qed.

Lemma part_header_lines_witness :
  exists part line,
    parts Demo.apikey_form = parts Demo.init ++ [part] /\ headers part = [line]
    /\ is_content_disposition line /\ ~ is_content_type line.
Proof.
  apply (proj1 (part_header_lines (platform := Demo.platform) Demo.init)
               (slit "apikey") (Some (DStr (slit "ABC123"))) Demo.apikey_form).
  reflexivity.
Defined.

Lemma xml_empty_body_success_witness :
  outcome (__set_response (platform := Demo.platform)
             (Demo.response_of "text/xml" None []) (Demo.receiving "text/xml" None))
  = Return true
  /\ xml_element_root (final (__set_response (platform := Demo.platform)
                                (Demo.response_of "text/xml" None [])
                                (Demo.receiving "text/xml" None)))
     = None.
Proof.
  destruct (xml_empty_body_success (platform := Demo.platform)
              (Demo.receiving "text/xml" None) (Demo.response_of "text/xml" None [])
              (Demo.message_of "text/xml" None) eq_refl (or_introl eq_refl) eq_refl)
    as (Ho & _ & _ & Hx & _).
  split; [exact Ho|]. rewrite Hx. reflexivity.
Defined.



(** C9: a client made with [http=True] that is answered with status 418
    and an empty reason phrase.  [_urlopen] replaces the [https_response]
    of the error processor and not its [http_response], so the opener
    raises [HTTPError] for the response: [sample] raises [PanWFapiError]
    with the text of that error after its one request, and neither the
    status nor a reason phrase is stored. *)
Lemma empty_reason_lost_over_http :
  let r := run (platform := Demo.platform) (Sample (Some (slit "0a1b")))
               Scenario.http_client in
  handlers_open (Platform := Demo.platform)
    (kwargs_of Scenario.http_client (slit "/publicapi/get/sample")
               (blit "apikey=ABC123&hash=0a1b") [])
  = Response Demo.teapot
  /\ getcode Demo.teapot = 418%Z /\ reason Demo.teapot = []
  /\ activity r
     = [EvUrlopen (kwargs_of Scenario.http_client (slit "/publicapi/get/sample")
                             (blit "apikey=ABC123&hash=0a1b") [])]
  /\ outcome r = Raise (PanWFapiError (Some (slit "HTTP Error 418: ")))
  /\ http_code (final r) = None
  /\ http_reason (final r) = None.
Proof. vm_compute. repeat split. Qed.

(** The table of the platform has its own phrase for 418; the phrase of the
    module wins. *)
Lemma empty_reason_substituted_witness :
  responses (Platform := Demo.platform) !! 418%Z = Some (slit "I'm a Teapot")
  /\ http_reason (final (__api_request (platform := Demo.platform)
                           (slit "/publicapi/get/sample")
                           (DStr (slit "apikey=ABC123")) [] Demo.client))
     = Some (slit "Unsupported File Type").
Proof.
  split; [reflexivity|].
  destruct (empty_reason_substituted (platform := Demo.platform) Demo.client
              (slit "/publicapi/get/sample") (DStr (slit "apikey=ABC123")) []
              (blit "apikey=ABC123") Demo.teapot eq_refl eq_refl
              (or_introl eq_refl) eq_refl)
    as (_ & H418 & _).
  apply H418. reflexivity.
Defined.


(** ** The further properties on the small platform *)


Lemma undecodable_body_raises_witness :
  __set_response (platform := Demo.platform)
    (Demo.response_of "application/json" None [xff])
    (Demo.receiving "application/json" None)
  = (Raise UnicodeDecodeError,
     set_response_type (Some (slit "json")) (Demo.receiving "application/json" None),
     []).
Proof.
  destruct (undecodable_body_raises (platform := Demo.platform)
              (Demo.receiving "application/json" None)
              (Demo.response_of "application/json" None [xff])
              (Demo.message_of "application/json" None) "json" UnicodeDecodeError
              eq_refl) as [Hset _].
  - do 2 right. left.
  - reflexivity.
  - exact Hset.
Defined.

Lemma xml_parse_error_witness :
  let r := check_response (platform := Demo.platform)
             (Some (Demo.response_of "text/xml" None (blit "<b>")))
             (Demo.receiving "text/xml" None) in
  outcome r
  = Raise (PanWFapiError
             (Some (slit "ElementTree.fromstring ParseError: syntax error: line 1, column 0")))
  /\ response_body (final r) = Some (slit "<b>").
Proof.
  destruct (xml_parse_error (platform := Demo.platform)
              (Demo.receiving "text/xml" None)
              (Demo.response_of "text/xml" None (blit "<b>"))
              (Demo.message_of "text/xml" None) (slit "<b>")
              (slit "syntax error: line 1, column 0")
              eq_refl (or_intror eq_refl) eq_refl)
    as (Ho & _ & _ & Hbody & _).
  - discriminate.
  - reflexivity.
  - split; [exact Ho|exact Hbody].
Defined.

Lemma xml_parse_success_witness :
  let r := check_response (platform := Demo.platform)
             (Some (Demo.response_of "text/xml" None ([LF] ++ blit "<a/>")))
             (Demo.receiving "text/xml" None) in
  outcome r = Return tt
  /\ xml_element_root (final r) = Some (Elem (slit "a") [] None [] None)
  /\ response_body (final r) = Some ([10] ++ slit "<a/>").
Proof.
  destruct (xml_parse_success (platform := Demo.platform)
              (Demo.receiving "text/xml" None)
              (Demo.response_of "text/xml" None ([LF] ++ blit "<a/>"))
              (Demo.message_of "text/xml" None) ([10] ++ slit "<a/>")
              (Elem (slit "a") [] None [] None)
              eq_refl (or_intror eq_refl) eq_refl)
    as (Ho & Hroot & Hbody & _).
  - discriminate.
  - reflexivity.
  - split; [exact Ho|]. split; [exact Hroot|exact Hbody].
Defined.

Lemma xml_blank_lines_only_witness :
  __set_response (platform := Demo.platform)
    (Demo.response_of "text/xml" None [CR; LF]) (Demo.receiving "text/xml" None)
  = (Return true,
     set_response_body (Some [13; 10])
       (set_response_type (Some (slit "xml")) (Demo.receiving "text/xml" None)),
     []).
Proof.
  apply (xml_blank_lines_only (platform := Demo.platform)
           (Demo.receiving "text/xml" None)
           (Demo.response_of "text/xml" None [CR; LF])
           (Demo.message_of "text/xml" None) eq_refl (or_intror eq_refl)).
  - discriminate.
  - constructor; [left; reflexivity|].
    constructor; [right; reflexivity|constructor].
Defined.

Lemma text_response_round_trip_witness :
  __set_response (platform := Demo.platform)
    (Demo.response_of "application/json" None (blit "[1, 2]"))
    (Demo.receiving "application/json" None)
  = (Return true,
     set_response_body (Some (slit "[1, 2]"))
       (set_response_type (Some (slit "json"))
                          (Demo.receiving "application/json" None)),
     []).
Proof.
  apply (text_response_round_trip (platform := Demo.platform)
           (Demo.receiving "application/json" None)
           (Demo.response_of "application/json" None (blit "[1, 2]"))
           (Demo.message_of "application/json" None) "json" (slit "[1, 2]") eq_refl).
  - left.
  - reflexivity.
  - discriminate.
Defined.


(** A certificate error raised as itself, a timeout, and a status line
    that cannot be read. *)
Lemma transport_failure_witness :
  (exchange (platform := Scenario.answering (CertificateError (slit "hostname mismatch")))
     (slit "/publicapi/get/sample") (DStr Scenario.sample_query) [] Demo.client
   = (Raise (PanWFapiError (Some (slit "ssl.CertificateError: hostname mismatch"))),
      set_msg (Some (slit "ssl.CertificateError: hostname mismatch")) Demo.client,
      [EvUrlopen (kwargs_of Demo.client (slit "/publicapi/get/sample")
                            (blit "apikey=ABC123&hash=0a1b") [])]))
  /\ (exchange (platform := Scenario.answering (URLError (slit "timed out")))
        (slit "/publicapi/get/sample") (DStr Scenario.sample_query) [] Demo.client
      = (Raise (PanWFapiError (Some (slit "timed out"))),
         set_msg (Some (slit "timed out")) Demo.client,
         [EvUrlopen (kwargs_of Demo.client (slit "/publicapi/get/sample")
                               (blit "apikey=ABC123&hash=0a1b") [])]))
  /\ (exchange (platform := Scenario.answering (OpenerRaised (slit "BadStatusLine")))
        (slit "/publicapi/get/sample") (DStr Scenario.sample_query) [] Demo.client
      = (Raise (OtherException (slit "BadStatusLine")), Demo.client,
         [EvUrlopen (kwargs_of Demo.client (slit "/publicapi/get/sample")
                               (blit "apikey=ABC123&hash=0a1b") [])])).
Proof.
  split; [|split].
  - apply (transport_failure
             (platform := Scenario.answering (CertificateError (slit "hostname mismatch")))
             (slit "/publicapi/get/sample") (DStr Scenario.sample_query) []
             Demo.client (blit "apikey=ABC123&hash=0a1b") eq_refl
             (slit "hostname mismatch")).
    reflexivity.
  - apply (transport_failure
             (platform := Scenario.answering (URLError (slit "timed out")))
             (slit "/publicapi/get/sample") (DStr Scenario.sample_query) []
             Demo.client (blit "apikey=ABC123&hash=0a1b") eq_refl
             (slit "timed out")).
    reflexivity.
  - apply (transport_failure
             (platform := Scenario.answering (OpenerRaised (slit "BadStatusLine")))
             (slit "/publicapi/get/sample") (DStr Scenario.sample_query) []
             Demo.client (blit "apikey=ABC123&hash=0a1b") eq_refl
             (slit "BadStatusLine")).
    reflexivity.
Defined.

(** The same 404 answer, to the https client and to the http client. *)
Lemma service_error_keeps_text_body_witness :
  (exchange
     (platform := Scenario.answering
                    (Response (Scenario.answer_of 404 "Not Found" "text/plain"
                                                  (blit "no such sample"))))
     (slit "/publicapi/get/sample") (DStr Scenario.sample_query) [] Demo.client
   = (Raise (PanWFapiError (Some (slit "HTTP Error 404: Not Found"))),
      set_response_body (Some (slit "no such sample"))
        (set_response_type (Some (slit "txt"))
           (set_msg (Some (slit "HTTP Error 404: Not Found"))
              (received Demo.client
                 (Scenario.answer_of 404 "Not Found" "text/plain" (blit "no such sample"))
                 (Demo.message_of "text/plain" None)))),
      [EvUrlopen (kwargs_of Demo.client (slit "/publicapi/get/sample")
                            (blit "apikey=ABC123&hash=0a1b") [])]))
  /\ (exchange
        (platform := Scenario.answering
                       (Response (Scenario.answer_of 404 "Not Found" "text/plain"
                                                     (blit "no such sample"))))
        (slit "/publicapi/get/sample") (DStr Scenario.sample_query) []
        Scenario.http_client
      = (Raise (PanWFapiError (Some (slit "HTTP Error 404: Not Found"))),
         set_msg (Some (slit "HTTP Error 404: Not Found")) Scenario.http_client,
         [EvUrlopen (kwargs_of Scenario.http_client (slit "/publicapi/get/sample")
                               (blit "apikey=ABC123&hash=0a1b") [])])).
Proof.
  split.
  - apply (proj1 (service_error_keeps_text_body
             (platform := Scenario.answering
                            (Response (Scenario.answer_of 404 "Not Found" "text/plain"
                                                          (blit "no such sample"))))
             (slit "/publicapi/get/sample") (DStr Scenario.sample_query) []
             Demo.client (blit "apikey=ABC123&hash=0a1b")
             (Scenario.answer_of 404 "Not Found" "text/plain" (blit "no such sample"))
             eq_refl eq_refl eq_refl)
             eq_refl (Demo.message_of "text/plain" None) "txt" (slit "no such sample")).
    + discriminate.
    + reflexivity.
    + do 2 right. left.
    + reflexivity.
    + discriminate.
  - apply (proj2 (service_error_keeps_text_body
             (platform := Scenario.answering
                            (Response (Scenario.answer_of 404 "Not Found" "text/plain"
                                                          (blit "no such sample"))))
             (slit "/publicapi/get/sample") (DStr Scenario.sample_query) []
             Scenario.http_client (blit "apikey=ABC123&hash=0a1b")
             (Scenario.answer_of 404 "Not Found" "text/plain" (blit "no such sample"))
             eq_refl eq_refl eq_refl)
             eq_refl (slit "HTTP Error 404: Not Found")).
    reflexivity.
Defined.


Lemma success_keeps_text_body_witness :
  exchange
    (platform := Scenario.answering
                   (Response (Scenario.answer_of 200 "OK" "application/json"
                                                 (blit "[1, 2]"))))
    (slit "/publicapi/get/sample") (DStr Scenario.sample_query) [] Demo.client
  = (Return tt,
     set_response_body (Some (slit "[1, 2]"))
       (set_response_type (Some (slit "json"))
          (received Demo.client
             (Scenario.answer_of 200 "OK" "application/json" (blit "[1, 2]"))
             (Demo.message_of "application/json" None))),
     [EvUrlopen (kwargs_of Demo.client (slit "/publicapi/get/sample")
                           (blit "apikey=ABC123&hash=0a1b") [])]).
Proof.
  apply (success_keeps_text_body
           (platform := Scenario.answering
                          (Response (Scenario.answer_of 200 "OK" "application/json"
                                                        (blit "[1, 2]"))))
           (slit "/publicapi/get/sample") (DStr Scenario.sample_query) []
           Demo.client (blit "apikey=ABC123&hash=0a1b")
           (Scenario.answer_of 200 "OK" "application/json" (blit "[1, 2]"))
           (Demo.message_of "application/json" None) "json" (slit "[1, 2]")
           eq_refl eq_refl).
  - discriminate.
  - reflexivity.
  - reflexivity.
  - left.
  - reflexivity.
  - discriminate.
Defined.

(** A timeout: the text of the failure is the message, and it is in
    [_msg]. *)
Lemma operations_error_message_kept_witness :
  let r := run (platform := Scenario.answering (URLError (slit "timed out")))
               (Sample (Some (slit "0a1b"))) Demo.client in
  outcome r = Raise (PanWFapiError (Some (slit "timed out")))
  /\ _msg (final r) = Some (slit "timed out")
  /\ message_kept (Some (slit "timed out")) (final r).
Proof.
  split; [vm_compute; reflexivity|]. split; [vm_compute; reflexivity|].
  apply (operations_error_message_kept
           (platform := Scenario.answering (URLError (slit "timed out")))
           (Sample (Some (slit "0a1b"))) Demo.client).
  vm_compute. reflexivity.
Defined.

Lemma operations_return_after_2xx_witness :
  let r := run (platform := Scenario.answering
                              (Response (Scenario.answer_of 200 "OK" "application/json"
                                                            (blit "[1, 2]"))))
               (Sample (Some (slit "0a1b"))) Demo.client in
  (exists code, http_code (final r) = Some code /\ (200 <= code < 300)%Z)
  /\ _msg (final r) = None
  /\ exists kwargs, EvUrlopen kwargs ∈ activity r.
Proof.
  apply (operations_return_after_2xx
           (platform := Scenario.answering
                          (Response (Scenario.answer_of 200 "OK" "application/json"
                                                        (blit "[1, 2]"))))
           (Sample (Some (slit "0a1b"))) Demo.client).
  vm_compute. reflexivity.
Defined.

(** A file name with a double quote in it. *)
Lemma encode_field_verbatim_witness :
  _encode_field (platform := Demo.platform) (slit "filename") [97; 34; 98]
  = Return (blit "filename" ++ blit "=" ++ [DQUOTE] ++ [byte_of 97; DQUOTE; byte_of 98]
              ++ [DQUOTE]).
Proof.
  apply (encode_field_verbatim (platform := Demo.platform)
           (slit "filename") [97; 34; 98]); reflexivity.
Defined.

Lemma boundary_shape_witness :
  length (_boundary (platform := Demo.platform)) = 80%nat
  /\ take 16 (_boundary (platform := Demo.platform)) = replicate 16 (byte_of 95)
  /\ Forall (fun x => line_safe x = true) (_boundary (platform := Demo.platform)).
Proof.
  apply (boundary_shape (platform := Demo.platform)).
  intros s [= <-]. reflexivity.
Defined.

Lemma http_headers_boundary_witness :
  http_headers Demo.apikey_form
  = Return [(slit "Content-Type",
             slit "multipart/form-data; boundary="
               ++ (Byte.to_N <$> boundary Demo.apikey_form))].
Proof.
  apply (http_headers_boundary (platform := Demo.platform) Demo.apikey_form).
  apply (built_add_field (slit "apikey") (Some (DStr (slit "ABC123"))) Demo.init);
    [apply built_init|reflexivity].
Defined.

Lemma submit_unreadable_file_witness :
  submit (platform := Demo.platform) (Some (slit "/tmp/missing.exe")) None None
         Demo.client
  = (Raise (PanWFapiError
              (Some (slit "open: " ++ slit "/tmp/missing.exe" ++ slit ": "
                     ++ slit "[Errno 2] No such file or directory"))),
     set_msg (Some (slit "open: " ++ slit "/tmp/missing.exe" ++ slit ": "
                    ++ slit "[Errno 2] No such file or directory"))
             (cleared Demo.client),
     [EvOpen (slit "/tmp/missing.exe")]).
Proof.
  apply (submit_unreadable_file (platform := Demo.platform) Demo.client
           (slit "/tmp/missing.exe") None None
           (slit "[Errno 2] No such file or directory")).
  - discriminate.
  - reflexivity.
  - reflexivity.
  - apply latin1_slit.
  - intros a [=].
  - reflexivity.
Defined.

Lemma submit_file_uploads_witness :
  sends (platform := Demo.platform) Demo.client (Some Demo.sample_path)
        (slit "/publicapi/submit/file")
        (file_part (blit "sample.exe") (blit "MZ"))
        (activity (submit (platform := Demo.platform) (Some Demo.sample_path)
                          None None Demo.client)).
Proof.
  apply (submit_file_uploads (platform := Demo.platform) Demo.client
           Demo.sample_path (blit "MZ") (blit "sample.exe")).
  - discriminate.
  - apply latin1_slit.
  - intros a [=].
  - reflexivity.
  - reflexivity.
Defined.

Lemma submit_url_field_witness :
  sends (platform := Demo.platform) Demo.client None (slit "/publicapi/submit/url")
        (field_part "url" (blit "http://a.example/"))
        (activity (submit (platform := Demo.platform) None
                          (Some (slit "http://a.example/")) None Demo.client)).
Proof.
  apply (submit_url_field (platform := Demo.platform) Demo.client
           (slit "http://a.example/") (blit "http://a.example/")).
  - discriminate.
  - apply latin1_slit.
  - intros a [=].
  - reflexivity.
Defined.

Lemma submit_single_link_witness :
  sends (platform := Demo.platform) Demo.client None (slit "/publicapi/submit/link")
        (field_part "link" (blit "http://a.example/"))
        (activity (submit (platform := Demo.platform) None None
                          (Some [slit "http://a.example/"]) Demo.client)).
Proof.
  apply (submit_single_link (platform := Demo.platform) Demo.client
           (slit "http://a.example/") (blit "http://a.example/")).
  - apply latin1_slit.
  - intros a [=].
  - reflexivity.
Defined.

Lemma verdicts_hashes_field_witness :
  sends (platform := Demo.platform) Demo.client None (slit "/publicapi/get/verdicts")
        (field_part "file" (blit "0a1b" ++ [LF] ++ blit "2c3d"))
        (activity (verdicts (platform := Demo.platform)
                            (Some [slit "0a1b"; slit "2c3d"]) Demo.client)).
Proof.
  apply (verdicts_hashes_field (platform := Demo.platform) Demo.client
           [slit "0a1b"; slit "2c3d"] (blit "0a1b" ++ [LF] ++ blit "2c3d")).
  - apply latin1_slit.
  - intros a [=].
  - reflexivity.
Defined.

(** No API key, neither given nor configured. *)
Lemma init_raises_PanWFapiError_witness :
  __init__ (startup := Scenario.startup) None None None None false None None
  = Raise (PanWFapiError (Some (slit "api_key required")))
  /\ exists msg,
       PanWFapiError (Some (slit "api_key required")) = PanWFapiError (Some msg).
Proof.
  split; [reflexivity|].
  apply (init_raises_PanWFapiError (startup := Scenario.startup)
           None None None None false None None).
  reflexivity.
Defined.

Lemma init_invalid_timeout_witness :
  __init__ (startup := Scenario.startup) None None (Some (slit "ABC123")) (Some (TInt 0))
           false None None
  = Raise (PanWFapiError (Some (slit "Invalid timeout: " ++ slit (pretty 0%Z)))).
Proof.
  apply (init_invalid_timeout (startup := Scenario.startup) None None
           (Some (slit "ABC123")) (TInt 0) 0%Z false None None).
  - reflexivity.
  - lia.
Defined.

Lemma init_instance_witness :
  exists panrc,
    PanRc (Startup := Scenario.startup) None
          (panrc_item "agent" None
             (panrc_item "api_key" (Some (slit "ABC123")) (panrc_item "hostname" None ∅)))
    = inr panrc
    /\ panrc !! "api_key" = Some (api_key (instance Scenario.constructed))
    /\ hostname Scenario.constructed = default _cloud_server (panrc !! "hostname")
    /\ uri (instance Scenario.constructed)
       = scheme false ++ hostname Scenario.constructed
    /\ (timeout (instance Scenario.constructed) = None
        <-> Some (TStr (slit "30")) = None)
    /\ (forall z, timeout (instance Scenario.constructed) = Some z -> (0 < z)%Z).
Proof.
  apply (init_instance (startup := Scenario.startup) None None (Some (slit "ABC123"))
           (Some (TStr (slit "30"))) false None None Scenario.constructed).
  reflexivity.
Defined.


Lemma response_without_content_type_witness :
  __set_response (platform := Demo.platform)
    {| getcode := 200; reason := slit "OK"; info := inr Scenario.untyped;
       read := blit "[1, 2]" |}
    (set_message (Some Scenario.untyped) (cleared Demo.client))
  = (Return true,
     set_response_body (Some (slit "[1, 2]"))
       (set_response_type (Some (slit "txt"))
          (set_message (Some Scenario.untyped) (cleared Demo.client))),
     []).
Proof.
  apply (response_without_content_type (platform := Demo.platform)
           (set_message (Some Scenario.untyped) (cleared Demo.client))
           {| getcode := 200; reason := slit "OK"; info := inr Scenario.untyped;
              read := blit "[1, 2]" |}
           Scenario.untyped (slit "[1, 2]") eq_refl eq_refl).
  - reflexivity.
  - discriminate.
Defined.

(** [change_request(hash='0a1b', verdict='1', comment='fp')] *)
Lemma change_request_fields_witness :
  exists form hdrs,
    activity (change_request (platform := Demo.platform) (Some (slit "0a1b"))
                (Some (slit "1")) None (Some (slit "fp")) Demo.client)
    = [EvUrlopen (kwargs_of Demo.client (slit "/publicapi/submit/change-request")
                            (http_body form) hdrs)]
    /\ http_headers form = Return hdrs
    /\ Forall2 is_field (parts form)
         [("apikey", slit "ABC123"); ("hash", slit "0a1b"); ("verdict", slit "1");
          ("comment", slit "fp")].
Proof.
  apply (change_request_fields (platform := Demo.platform) Demo.client
           (Some (slit "0a1b")) (Some (slit "1")) None (Some (slit "fp"))).
  - apply latin1_slit.
  - intros a [=].
  - intros x [= <-]. apply latin1_slit.
  - intros x [= <-]. apply latin1_slit.
  - intros x [=].
  - intros x [= <-]. apply latin1_slit.
Defined.
